(** * App_casa: debt ledger, context filter, shopping checkout and
      furniture purchase of [app.py], embedded in Rocq.

    Conventions of the embedding.
    - The numbers stored in the document are given by their exact value, a
      rational [Qc]. The ledger is embedded twice. [calculate_debts] works on
      exact rationals: it is the ledger as a computation over the reals, and
      carries the properties of the control flow and of the algebra of the
      transfers. [Binary64.calculate_debts] is the ledger with the arithmetic
      Python performs, binary64 floating point: the share, every [-=] and
      every [+=] are rounded, and a quotient beyond the largest float raises
      [OverflowError]. What depends on rounding or on overflow is stated on
      the second.
    - A Python dict keyed by strings is a [gmap string _]; a subscript
      [d[k]] on a missing key raises [KeyError].
    - Python lists are lists; a list of dicts held in the session is a list
      of records, and an object of that list is designated by its position.
    - Exceptions are values of [exn], threaded through the [result] monad. *)

From Stdlib Require Import QArith Qcanon.
From Stdlib Require Import Floats.SpecFloat.
From stdpp Require Import gmap strings list fin_maps numbers pretty.

Local Open Scope Qc_scope.
Set Warnings "-clear-no-such-hyp".

(** ** Exceptions and the error monad *)

Inductive exn : Set :=
  | KeyError
  | ZeroDivisionError
  | ValueError
  | OverflowError.

Inductive result (A : Type) : Type :=
  | Ok (a : A)
  | Raise (e : exn).
Arguments Ok {A} a.
Arguments Raise {A} e.

Global Instance result_bind : MBind result := λ A B k m,
  match m with
  | Ok a => k a
  | Raise e => Raise e
  end.

Global Instance exn_eq_dec : EqDecision exn.
Proof. solve_decision. Defined.
Global Instance result_eq_dec `{EqDecision A} : EqDecision (result A).
Proof. solve_decision. Defined.

(** A Python [for x in l: body] whose body may raise: the loop state is
    threaded through the iterations and the first exception aborts it. *)
Fixpoint for_each {S A} (body : S → A → result S) (s : S) (l : list A)
  : result S :=
  match l with
  | [] => Ok s
  | x :: rest => s' ← body s x ; for_each body s' rest
  end.

(** ** Python primitives used by the ledger, in exact arithmetic *)

(** The dict of balances is a [gmap] and the numbers are exact; the same
    primitives on binary64 floats are those of [Binary64] below. *)

(** [m[k]] *)
Definition getitem (m : gmap string Qc) (k : string) : result Qc :=
  match m !! k with
  | Some v => Ok v
  | None => Raise KeyError
  end.

(** [m[k] -= x] and [m[k] += x]: read, then store. *)
Definition isub (m : gmap string Qc) (k : string) (x : Qc)
  : result (gmap string Qc) :=
  v ← getitem m k ; Ok (<[k := v - x]> m).

Definition iadd (m : gmap string Qc) (k : string) (x : Qc)
  : result (gmap string Qc) :=
  v ← getitem m k ; Ok (<[k := v + x]> m).

(** [a / n] for a number [a] and a length [n], the exact quotient. *)
Definition truediv (a : Qc) (n : nat) : result Qc :=
  match n with
  | O => Raise ZeroDivisionError
  | S _ => Ok (a / Qc_of_Z (Z.of_nat n))
  end.

(** [sum(m.values())] *)
Definition sum_values (m : gmap string Qc) : Qc :=
  map_fold (λ _ v acc, acc + v) 0 m.

(** ** Configuration *)

Definition ROOMIES : list string := ["Ale"; "Ferb"; "Fandi"].
Definition CATS_PARENTS : list string := ["Ale"; "Fandi"].

Definition current_users (is_cat_mode : bool) : list string :=
  if is_cat_mode then CATS_PARENTS else ROOMIES.

Definition context_id (is_cat_mode : bool) : string :=
  if is_cat_mode then "cat" else "house".

(** ** Entities of the state document *)

Module Task.
Record t : Type := mk {
  id : string;
  title : string;
  assignees : list string;
  status : string;
  importance : Z;
  created : string;
  due : string;
  context : string
}.
End Task.

Module Bill.
Record t : Type := mk {
  date : string;
  amount : Qc;
  category : string;
  description : string;
  payer : string;
  debtors : list string;
  context : string
}.
End Bill.

Module ShoppingItem.
Record t : Type := mk {
  name : string;
  status : string;
  context : string
}.

(** [item['status'] = s] *)
Definition set_status (s : string) (i : t) : t :=
  {| name := name i; status := s; context := context i |}.
End ShoppingItem.

Module FurnitureItem.
Record t : Type := mk {
  name : string;
  estimate : Qc;
  date : string;
  status : string;
  context : string
}.

Definition set_status (s : string) (i : t) : t :=
  {| name := name i; estimate := estimate i; date := date i;
     status := s; context := context i |}.
End FurnitureItem.

Global Instance Task_eq_dec : EqDecision Task.t.
Proof. solve_decision. Defined.
Global Instance Bill_eq_dec : EqDecision Bill.t.
Proof. solve_decision. Defined.
Global Instance ShoppingItem_eq_dec : EqDecision ShoppingItem.t.
Proof. solve_decision. Defined.
Global Instance FurnitureItem_eq_dec : EqDecision FurnitureItem.t.
Proof. solve_decision. Defined.

(** [x.get('context')]: every entity carries a context tag. *)
Class Contextual (A : Type) := get_context : A → option string.

Global Instance Task_contextual : Contextual Task.t :=
  λ x, Some (Task.context x).
Global Instance Bill_contextual : Contextual Bill.t :=
  λ x, Some (Bill.context x).
Global Instance ShoppingItem_contextual : Contextual ShoppingItem.t :=
  λ x, Some (ShoppingItem.context x).
Global Instance FurnitureItem_contextual : Contextual FurnitureItem.t :=
  λ x, Some (FurnitureItem.context x).

(** ** Context filter

    [[x for x in data[key] if x.get('context') == context_id]] *)
Fixpoint get_context_data {A} `{Contextual A} (context_id : string)
    (l : list A) : list A :=
  match l with
  | [] => []
  | x :: rest =>
      if decide (get_context x = Some context_id)
      then x :: get_context_data context_id rest
      else get_context_data context_id rest
  end.

(** ** Debt ledger *)

(** [balances = {u: 0 for u in current_users}] *)
Definition init_balances (users : list string) : gmap string Qc :=
  foldl (λ m u, <[u := 0]> m) ∅ users.

(** Body of [for d in debtors]. *)
Definition transfer (payer : string) (split_amount : Qc)
    (balances : gmap string Qc) (d : string) : result (gmap string Qc) :=
  if decide (d ≠ payer) then
    balances ← isub balances d split_amount ;
    iadd balances payer split_amount
  else Ok balances.

(** Body of [for bill in bills_list]. *)
Definition bill_step (balances : gmap string Qc) (bill : Bill.t)
  : result (gmap string Qc) :=
  let payer := Bill.payer bill in
  let debtors := Bill.debtors bill in
  let amount := Bill.amount bill in
  match debtors with
  | [] => Ok balances  (* if not debtors: continue *)
  | _ :: _ =>
      split_amount ← truediv amount (length debtors) ;
      for_each (transfer payer split_amount) balances debtors
  end.

Definition calculate_debts (users : list string) (bills_list : list Bill.t)
  : result (gmap string Qc) :=
  for_each bill_step (init_balances users) bills_list.

(** ** State document and session *)

Record Data : Type := mkData {
  tasks : list Task.t;
  bills : list Bill.t;
  shopping : list ShoppingItem.t;
  furniture : list FurnitureItem.t
}.

(** [st.session_state]: the cached document, the cart (an insertion-ordered
    dict, kept as the list of its items) and the pending furniture purchase.
    [temp_furn_buy] holds a reference to a dict of [data['furniture']], not a
    copy of it: it is the position of that dict in the list. *)
Record Session : Type := mkSession {
  data : Data;
  shopping_cart : list (string * Qc);
  temp_furn_buy : option nat
}.

Global Instance Data_eq_dec : EqDecision Data.
Proof. solve_decision. Defined.
Global Instance Session_eq_dec : EqDecision Session.
Proof. solve_decision. Defined.

(** What [load_data] returns for an empty cell. *)
Definition empty_data : Data :=
  {| tasks := []; bills := []; shopping := []; furniture := [] |}.

Definition append_bill (new_bill : Bill.t) (d : Data) : Data :=
  {| tasks := tasks d; bills := bills d ++ [new_bill];
     shopping := shopping d; furniture := furniture d |}.

Definition with_shopping (sh : list ShoppingItem.t) (d : Data) : Data :=
  {| tasks := tasks d; bills := bills d;
     shopping := sh; furniture := furniture d |}.

Definition with_furniture (f : list FurnitureItem.t) (d : Data) : Data :=
  {| tasks := tasks d; bills := bills d;
     shopping := shopping d; furniture := f |}.

(** ** Manual bill entry (form [add_bill]) *)

Definition add_bill (is_cat_mode : bool)
    (b_desc b_cat : string) (b_amount : Qc) (b_payer : string)
    (b_debtors : list string) (b_date : string) (s : Session) : Session :=
  let new_bill :=
    {| Bill.date := b_date; Bill.amount := b_amount; Bill.category := b_cat;
       Bill.description := b_desc; Bill.payer := b_payer;
       Bill.debtors := b_debtors; Bill.context := context_id is_cat_mode |} in
  {| data := append_bill new_bill (data s);
     shopping_cart := shopping_cart s;
     temp_furn_buy := temp_furn_buy s |}.

(** ** Shopping list, planning mode *)

(** [any(i['name'] == new_item for i in all_items)] *)
Definition name_taken (new_item : string) (all_items : list ShoppingItem.t)
  : bool :=
  existsb (λ i, bool_decide (ShoppingItem.name i = new_item)) all_items.

Definition shopping_add (is_cat_mode : bool) (new_item : string)
    (s : Session) : Session :=
  let all_items := get_context_data (context_id is_cat_mode)
                     (shopping (data s)) in
  if bool_decide (new_item = "") then s
  else if name_taken new_item all_items then s
  else
    {| data := with_shopping
                 (shopping (data s) ++
                    [{| ShoppingItem.name := new_item;
                        ShoppingItem.status := "buy";
                        ShoppingItem.context := context_id is_cat_mode |}])
                 (data s);
       shopping_cart := shopping_cart s;
       temp_furn_buy := temp_furn_buy s |}.

(** [l.remove(x)]: drops the first element equal to [x], [ValueError] when
    there is none. *)
Fixpoint list_remove `{EqDecision A} (x : A) (l : list A) : result (list A) :=
  match l with
  | [] => Raise ValueError
  | y :: rest =>
      if decide (y = x) then Ok rest
      else rest' ← list_remove x rest ; Ok (y :: rest')
  end.

(** Button [del_<name>]: [st.session_state.data['shopping'].remove(item)]. *)
Definition shopping_remove (item : ShoppingItem.t) (s : Session)
  : result Session :=
  sh ← list_remove item (shopping (data s)) ;
  Ok {| data := with_shopping sh (data s);
        shopping_cart := shopping_cart s;
        temp_furn_buy := temp_furn_buy s |}.

(** ** Shopping cart and checkout *)

(** [sum(st.session_state.shopping_cart.values())] *)
Definition cart_total (cart : list (string * Qc)) : Qc :=
  foldl Qcplus 0 (cart.*2).

(** [list(st.session_state.shopping_cart.keys())] *)
Definition cart_items (cart : list (string * Qc)) : list string := cart.*1.

(** [sep.join(l)] *)
Definition join (sep : string) (l : list string) : string :=
  match l with
  | [] => ""
  | x :: rest => foldl (λ acc y, acc +:+ sep +:+ y) x rest
  end.

(** Inner loop of step 3: [for db_item in data['shopping']]. *)
Definition mark_have (ctx : string) (item_name : string)
    (sh : list ShoppingItem.t) : list ShoppingItem.t :=
  map (λ db_item,
         if decide (ShoppingItem.name db_item = item_name
                    ∧ ShoppingItem.context db_item = ctx)
         then ShoppingItem.set_status "have" db_item
         else db_item) sh.

(** Outer loop of step 3: [for item_name in cart_items]. *)
Definition update_inventory (ctx : string) (items : list string)
    (sh : list ShoppingItem.t) : list ShoppingItem.t :=
  foldl (λ sh item_name, mark_have ctx item_name sh) sh items.

Section Checkout.
(** The text Python puts for a number inside an f-string. *)
Variable str : Qc → string.

(** [", ".join([f"{k} ({v})" for k, v in cart.items()])] *)
Definition desc_str (cart : list (string * Qc)) : string :=
  join ", " (map (λ kv, kv.1 +:+ " (" +:+ str kv.2 +:+ ")") cart).

(** Submission of the form [checkout]; the form only exists under
    [if cart_total > 0]. [today] is [str(datetime.now().date())]. *)
Definition checkout (is_cat_mode : bool) (today : string)
    (c_payer : string) (c_debtors : list string) (s : Session) : Session :=
  let total := cart_total (shopping_cart s) in
  let items := cart_items (shopping_cart s) in
  if decide (0 < total) then
    let new_bill :=
      {| Bill.date := today; Bill.amount := total;
         Bill.category := "Supermercado";
         Bill.description := desc_str (shopping_cart s);
         Bill.payer := c_payer; Bill.debtors := c_debtors;
         Bill.context := context_id is_cat_mode |} in
    let d := append_bill new_bill (data s) in
    {| data := with_shopping
                 (update_inventory (context_id is_cat_mode) items (shopping d))
                 d;
       shopping_cart := [];
       temp_furn_buy := temp_furn_buy s |}
  else s.
End Checkout.

(** ** Furniture wish list *)

Definition add_furn (is_cat_mode : bool) (f_name : string) (f_est : Qc)
    (f_date : string) (s : Session) : Session :=
  let new_f :=
    {| FurnitureItem.name := f_name; FurnitureItem.estimate := f_est;
       FurnitureItem.date := f_date; FurnitureItem.status := "wish";
       FurnitureItem.context := context_id is_cat_mode |} in
  {| data := with_furniture (furniture (data s) ++ [new_f]) (data s);
     shopping_cart := shopping_cart s;
     temp_furn_buy := temp_furn_buy s |}.

(** The two lists of the page. *)

(** [[f for f in furn_list if f['status'] == 'wish']] *)
Definition wishes (furn_list : list FurnitureItem.t) : list FurnitureItem.t :=
  filter (λ f, FurnitureItem.status f = "wish") furn_list.

(** [[f for f in furn_list if f['status'] == 'bought']] *)
Definition bought (furn_list : list FurnitureItem.t) : list FurnitureItem.t :=
  filter (λ f, FurnitureItem.status f = "bought") furn_list.

(** The keys [buyf_<name>] of the buttons the loop [for item in wishes] has
    asked for once it has drawn the entry at position [i] of the furniture
    list: one for each wish of the active context among the entries up to
    that position. *)
Definition button_keys (is_cat_mode : bool) (i : nat)
    (f : list FurnitureItem.t) : list string :=
  FurnitureItem.name
    <$> wishes (get_context_data (context_id is_cat_mode) (take (S i) f)).

(** Button [buyf_<name>] of the wish at position [i] of the furniture list:
    [st.session_state.temp_furn_buy = item]. The button exists only for
    the wishes of the active context. Streamlit admits one widget per key:
    [c2.button] raises on a key that an earlier button of the run has, which
    ends the run. So the button of the entry at position [i] is drawn, and
    can be pressed, only when the keys asked for up to it are pairwise
    distinct. *)
Definition furn_buy (is_cat_mode : bool) (i : nat) (s : Session) : Session :=
  match furniture (data s) !! i with
  | Some item =>
      if decide (FurnitureItem.status item = "wish"
                 ∧ FurnitureItem.context item = context_id is_cat_mode
                 ∧ NoDup (button_keys is_cat_mode i (furniture (data s))))
      then {| data := data s; shopping_cart := shopping_cart s;
              temp_furn_buy := Some i |}
      else s
  | None => s
  end.

(** One iteration of [for db_item in data['furniture']] at position [j]:
    [if db_item == item: db_item['status'] = 'bought']. [item] is the dict
    at position [item_ref] of the same list, so the comparison reads its
    current fields, including a status written by an earlier iteration. *)
Definition mark_if_equal (item_ref : nat) (f : list FurnitureItem.t)
    (j : nat) : list FurnitureItem.t :=
  match f !! j, f !! item_ref with
  | Some db_item, Some item =>
      if decide (db_item = item)
      then <[j := FurnitureItem.set_status "bought" db_item]> f
      else f
  | _, _ => f
  end.

Definition mark_bought (item_ref : nat) (f : list FurnitureItem.t)
  : list FurnitureItem.t :=
  foldl (mark_if_equal item_ref) f (seq 0 (length f)).

(** Submission of the form [furn_checkout], shown while
    ['temp_furn_buy' in st.session_state]. *)
Definition furn_checkout (is_cat_mode : bool) (today : string)
    (real_price : Qc) (p_payer : string) (p_debtors : list string)
    (s : Session) : Session :=
  match temp_furn_buy s with
  | None => s
  | Some item_ref =>
      match furniture (data s) !! item_ref with
      | None => s
      | Some item =>
          let new_bill :=
            {| Bill.date := today; Bill.amount := real_price;
               Bill.category := "Muebles";
               Bill.description :=
                 "Compra Mueble: " +:+ FurnitureItem.name item;
               Bill.payer := p_payer; Bill.debtors := p_debtors;
               Bill.context := context_id is_cat_mode |} in
          let d := append_bill new_bill (data s) in
          {| data := with_furniture (mark_bought item_ref (furniture d)) d;
             shopping_cart := shopping_cart s;
             temp_furn_buy := None |}
      end
  end.

(** ** Dashboard (section Resumen) *)

(** The three branches of the balance display: [st.success] (recupera),
    [st.error] (debe) and [st.info] (a paz y salvo). *)
Inductive Standing : Set :=
  | Recupera
  | Debe
  | PazYSalvo.

Global Instance Standing_eq_dec : EqDecision Standing.
Proof. solve_decision. Defined.

(** [if amount > 1: ... elif amount < -1: ... else: ...] *)
Definition standing (amount : Qc) : Standing :=
  if decide (1 < amount) then Recupera
  else if decide (amount < -1) then Debe
  else PazYSalvo.

(** The dashboard: balances of the bills of the active context, then one
    line per entry of [balances.items()], which lists the participants in
    the order of [current_users]. *)
Definition resumen (is_cat_mode : bool) (s : Session)
  : result (list (string * Standing)) :=
  let bills := get_context_data (context_id is_cat_mode) (bills (data s)) in
  balances ← calculate_debts (current_users is_cat_mode) bills ;
  Ok (omap (λ person,
              (λ amount, (person, standing amount)) <$> balances !! person)
        (current_users is_cat_mode)).

(** ** Tasks (section Responsabilidades) *)

(** The options of the status select box. *)
Definition STATUS_OPTIONS : list string :=
  ["Pendiente"; "En Progreso"; "Completado"].

Definition with_tasks (ts : list Task.t) (d : Data) : Data :=
  {| tasks := ts; bills := bills d;
     shopping := shopping d; furniture := furniture d |}.

(** [t['status'] = new_status] *)
Definition task_set_status (new_status : string) (t : Task.t) : Task.t :=
  {| Task.id := Task.id t; Task.title := Task.title t;
     Task.assignees := Task.assignees t; Task.status := new_status;
     Task.importance := Task.importance t; Task.created := Task.created t;
     Task.due := Task.due t; Task.context := Task.context t |}.

(** Submission of the form [new_task]. [now_id] is
    [str(datetime.now().timestamp())], [today] is
    [str(datetime.now().date())] and [t_due] the chosen date, if any. *)
Definition new_task (is_cat_mode : bool) (now_id t_title : string)
    (t_assignees : list string) (t_imp : Z) (today : string)
    (t_due : option string) (s : Session) : Session :=
  let task :=
    {| Task.id := now_id; Task.title := t_title;
       Task.assignees := t_assignees; Task.status := "Pendiente";
       Task.importance := t_imp; Task.created := today;
       Task.due := match t_due with Some d => d | None => "Sin fecha" end;
       Task.context := context_id is_cat_mode |} in
  {| data := with_tasks (tasks (data s) ++ [task]) (data s);
     shopping_cart := shopping_cart s;
     temp_furn_buy := temp_furn_buy s |}.

(** [l.index(x)]: position of the first element equal to [x], [ValueError]
    when there is none. *)
Fixpoint list_index `{EqDecision A} (x : A) (l : list A) : result nat :=
  match l with
  | [] => Raise ValueError
  | y :: rest =>
      if decide (y = x) then Ok 0%nat
      else i ← list_index x rest ; Ok (S i)
  end.

(** The loop [for t in all_tasks] of the board, in a run where the user has
    put the select box of the task at position [i] of [data['tasks']] on
    [new_status]; [j] is the position of the head of [ts]. Each task of the
    active context is drawn, which looks its status up among the options;
    every other select box gives back the stored status. The first change
    is stored and [st.rerun()] ends the run. *)
Fixpoint board_loop (ctx : string) (i : nat) (new_status : string)
    (j : nat) (ts : list Task.t) : result (list Task.t) :=
  match ts with
  | [] => Ok []
  | t :: rest =>
      if decide (get_context t = Some ctx) then
        _ ← list_index (Task.status t) STATUS_OPTIONS ;
        if decide (j = i ∧ new_status ≠ Task.status t)
        then Ok (task_set_status new_status t :: rest)
        else rest' ← board_loop ctx i new_status (S j) rest ; Ok (t :: rest')
      else rest' ← board_loop ctx i new_status (S j) rest ; Ok (t :: rest')
  end.

Definition task_board (is_cat_mode : bool) (i : nat) (new_status : string)
    (s : Session) : result Session :=
  ts ← board_loop (context_id is_cat_mode) i new_status 0 (tasks (data s)) ;
  Ok {| data := with_tasks ts (data s);
        shopping_cart := shopping_cart s;
        temp_furn_buy := temp_furn_buy s |}.

(** [[t for t in all_tasks
      if me in t['assignees'] and t['status'] != "Completado"]] *)
Definition my_tasks (me : string) (all_tasks : list Task.t) : list Task.t :=
  filter (λ t, me ∈ Task.assignees t ∧ Task.status t ≠ "Completado")
    all_tasks.

(** ** Shopping list: the two columns and their buttons *)

(** [[i for i in all_items if i['status'] == 'buy']] *)
Definition to_buy (all_items : list ShoppingItem.t) : list ShoppingItem.t :=
  filter (λ i, ShoppingItem.status i = "buy") all_items.

(** [[i for i in all_items if i['status'] == 'have']] *)
Definition have (all_items : list ShoppingItem.t) : list ShoppingItem.t :=
  filter (λ i, ShoppingItem.status i = "have") all_items.

(** The item at position [i] of [data['shopping']] is drawn in the column
    of status [status] of the active context. *)
Definition drawn (is_cat_mode : bool) (status : string)
    (item : ShoppingItem.t) : Prop :=
  ShoppingItem.context item = context_id is_cat_mode
  ∧ ShoppingItem.status item = status.

Global Instance drawn_dec is_cat_mode status item :
  Decision (drawn is_cat_mode status item).
Proof. unfold drawn. apply _. Defined.

(** A button of a drawn item that writes its status:
    [item['status'] = new_status]. *)
Definition shopping_mark (is_cat_mode : bool) (status new_status : string)
    (i : nat) (s : Session) : Session :=
  match shopping (data s) !! i with
  | Some item =>
      if decide (drawn is_cat_mode status item)
      then {| data :=
                with_shopping
                  (<[i := ShoppingItem.set_status new_status item]>
                     (shopping (data s)))
                  (data s);
              shopping_cart := shopping_cart s;
              temp_furn_buy := temp_furn_buy s |}
      else s
  | None => s
  end.

(** Button [have_<name>] of an item to buy: [item['status'] = 'have']. *)
Definition shopping_have (is_cat_mode : bool) (i : nat) (s : Session)
  : Session :=
  shopping_mark is_cat_mode "buy" "have" i s.

(** Button [buy_<name>] of an item at home: [item['status'] = 'buy']. *)
Definition shopping_buy (is_cat_mode : bool) (i : nat) (s : Session)
  : Session :=
  shopping_mark is_cat_mode "have" "buy" i s.

(** ** The cart, a dict from item name to price *)

(** [cart[k] = v]: an existing key keeps its place, a new key goes last. *)
Fixpoint dict_set (k : string) (v : Qc) (cart : list (string * Qc))
  : list (string * Qc) :=
  match cart with
  | [] => [(k, v)]
  | kv :: rest =>
      if decide (kv.1 = k) then (k, v) :: rest
      else kv :: dict_set k v rest
  end.

(** [del cart[k]] *)
Fixpoint dict_del (k : string) (cart : list (string * Qc))
  : result (list (string * Qc)) :=
  match cart with
  | [] => Raise KeyError
  | kv :: rest =>
      if decide (kv.1 = k) then Ok rest
      else rest' ← dict_del k rest ; Ok (kv :: rest')
  end.

(** [cart.get(k)] *)
Fixpoint dict_get (k : string) (cart : list (string * Qc)) : option Qc :=
  match cart with
  | [] => None
  | kv :: rest => if decide (kv.1 = k) then Some kv.2 else dict_get k rest
  end.

Definition with_cart (cart : list (string * Qc)) (s : Session) : Session :=
  {| data := data s; shopping_cart := cart;
     temp_furn_buy := temp_furn_buy s |}.

(** Button [add_<name>] ("Al carro"), drawn for an item to buy that is not
    in the cart: [shopping_cart[item['name']] = 0]. *)
Definition cart_add (is_cat_mode : bool) (i : nat) (s : Session) : Session :=
  match shopping (data s) !! i with
  | Some item =>
      if decide (drawn is_cat_mode "buy" item
                 ∧ dict_get (ShoppingItem.name item) (shopping_cart s) = None)
      then with_cart (dict_set (ShoppingItem.name item) 0 (shopping_cart s)) s
      else s
  | None => s
  end.

(** Price box [price_<name>] of an item in the cart:
    [shopping_cart[item['name']] = price]. *)
Definition cart_price (is_cat_mode : bool) (i : nat) (price : Qc)
    (s : Session) : Session :=
  match shopping (data s) !! i with
  | Some item =>
      if decide (drawn is_cat_mode "buy" item
                 ∧ dict_get (ShoppingItem.name item) (shopping_cart s) ≠ None)
      then with_cart
             (dict_set (ShoppingItem.name item) price (shopping_cart s)) s
      else s
  | None => s
  end.

(** Button [rem_<name>] ("Sacar") of an item in the cart:
    [del shopping_cart[item['name']]]. *)
Definition cart_out (is_cat_mode : bool) (i : nat) (s : Session)
  : result Session :=
  match shopping (data s) !! i with
  | Some item =>
      if decide (drawn is_cat_mode "buy" item
                 ∧ dict_get (ShoppingItem.name item) (shopping_cart s) ≠ None)
      then cart ← dict_del (ShoppingItem.name item) (shopping_cart s) ;
           Ok (with_cart cart s)
      else Ok s
  | None => Ok s
  end.

(** ** The ledger in binary64

    Python computes [amount / len(debtors)], [-=] and [+=] in binary64
    floating point, rounding to nearest, ties to even. This module is the
    ledger with that arithmetic, on the standard library's specification of
    IEEE 754 ([prec = 53], [emax = 1024]). A stored amount is given by its
    exact value, an integer or the value of a float; the balances are kept
    as the list of the dict's items, in insertion order, since the order of
    a floating-point sum matters. The untouched balance, the integer [0],
    is the float [+0.0]. *)
Module Binary64.

Definition prec : Z := 53.
Definition emax : Z := 1024.
Definition zero : spec_float := S754_zero false.
Definition fadd : spec_float → spec_float → spec_float := SFadd prec emax.
Definition fsub : spec_float → spec_float → spec_float := SFsub prec emax.

Global Instance spec_float_eq_dec : EqDecision spec_float.
Proof. solve_decision. Defined.

(** The quotient [p / q] of two integers, rounded once. *)
Definition quotient (p : Z) (q : positive) : spec_float :=
  match p with
  | Z0 => zero
  | Zpos m => SFdiv prec emax (S754_finite false m 0) (S754_finite false q 0)
  | Zneg m => SFdiv prec emax (S754_finite true m 0) (S754_finite false q 0)
  end.

(** [a / n] for a stored amount [a] and a length [n]: the correctly rounded
    quotient; an integer amount whose quotient is beyond the largest float
    raises [OverflowError]. *)
Definition truediv (a : Qc) (n : nat) : result spec_float :=
  match n with
  | O => Raise ZeroDivisionError
  | S _ =>
      match quotient (Qnum a) (Qden a * Pos.of_nat n) with
      | S754_infinity _ => Raise OverflowError
      | s => Ok s
      end
  end.

(** [m[k]] *)
Fixpoint getitem (m : list (string * spec_float)) (k : string)
  : result spec_float :=
  match m with
  | [] => Raise KeyError
  | kv :: rest => if decide (kv.1 = k) then Ok kv.2 else getitem rest k
  end.

(** [m[k] = v]: an existing key keeps its place, a new key goes last. *)
Fixpoint setitem (k : string) (v : spec_float)
    (m : list (string * spec_float)) : list (string * spec_float) :=
  match m with
  | [] => [(k, v)]
  | kv :: rest =>
      if decide (kv.1 = k) then (k, v) :: rest else kv :: setitem k v rest
  end.

(** [m[k] -= x] and [m[k] += x] *)
Definition isub (m : list (string * spec_float)) (k : string)
    (x : spec_float) : result (list (string * spec_float)) :=
  v ← getitem m k ; Ok (setitem k (fsub v x) m).

Definition iadd (m : list (string * spec_float)) (k : string)
    (x : spec_float) : result (list (string * spec_float)) :=
  v ← getitem m k ; Ok (setitem k (fadd v x) m).

(** [balances = {u: 0 for u in current_users}] *)
Definition init_balances (users : list string) : list (string * spec_float) :=
  foldl (λ m u, setitem u zero m) [] users.

Definition transfer (payer : string) (split_amount : spec_float)
    (balances : list (string * spec_float)) (d : string)
  : result (list (string * spec_float)) :=
  if decide (d ≠ payer) then
    balances ← isub balances d split_amount ;
    iadd balances payer split_amount
  else Ok balances.

Definition bill_step (balances : list (string * spec_float)) (bill : Bill.t)
  : result (list (string * spec_float)) :=
  let payer := Bill.payer bill in
  let debtors := Bill.debtors bill in
  let amount := Bill.amount bill in
  match debtors with
  | [] => Ok balances  (* if not debtors: continue *)
  | _ :: _ =>
      split_amount ← truediv amount (length debtors) ;
      for_each (transfer payer split_amount) balances debtors
  end.

Definition calculate_debts (users : list string) (bills_list : list Bill.t)
  : result (list (string * spec_float)) :=
  for_each bill_step (init_balances users) bills_list.

(** [sum(balances.values())], from the integer [0], in the order of the
    dict. *)
Definition sum_values (balances : list (string * spec_float)) : spec_float :=
  foldl fadd zero (balances.*2).

(** The number a finite float stands for. *)
Definition value (f : spec_float) : option Qc :=
  match f with
  | S754_zero _ => Some 0
  | S754_finite s m e =>
      Some (Q2Qc (inject_Z (cond_Zopp s (Zpos m)) * Qpower 2 e))
  | S754_infinity _ | S754_nan => None
  end.

End Binary64.

(** * Specification vocabulary *)

(** A debtor other than the payer whose name, or whose payer's name, is not
    a key of the balances. *)
Definition unknown_party (keys : gset string) (payer d : string) : Prop :=
  d ≠ payer ∧ (d ∉ keys ∨ payer ∉ keys).

Definition known_party (keys : gset string) (payer d : string) : Prop :=
  d = payer ∨ (d ∈ keys ∧ payer ∈ keys).

Definition bill_known (keys : gset string) (b : Bill.t) : Prop :=
  Forall (known_party keys (Bill.payer b)) (Bill.debtors b).

Definition bill_unknown (keys : gset string) (b : Bill.t) : Prop :=
  Exists (unknown_party keys (Bill.payer b)) (Bill.debtors b).

(** Payer and debtors of the bill are drawn from the participant list. *)
Definition drawn_from (users : list string) (b : Bill.t) : Prop :=
  Bill.payer b ∈ users ∧ Bill.debtors b ⊆ users.

(** The bill has a debtor other than its payer, and that debtor or the payer
    is not a participant. *)
Definition indexes_stranger (users : list string) (b : Bill.t) : Prop :=
  ∃ d, d ∈ Bill.debtors b ∧ d ≠ Bill.payer b
       ∧ (d ∉ users ∨ Bill.payer b ∉ users).

(** Shopping items are told apart by name within a context (the data model's
    uniqueness rule, which [shopping_add] enforces on insertion). *)
Definition names_unique (sh : list ShoppingItem.t) : Prop :=
  NoDup (map (λ i, (ShoppingItem.name i, ShoppingItem.context i)) sh).

(** The entry [x] carries the context tag [c]. *)
Definition tagged {A} `{Contextual A} (c : string) (x : A) : Prop :=
  get_context x = Some c.

Global Instance tagged_dec {A} `{Contextual A} (c : string) (x : A) :
  Decision (tagged c x).
Proof. unfold tagged. apply _. Defined.

(** What step 3 of the checkout does to one shopping item, for the cart's
    item names [items] and the active context [ctx]. *)
Definition restock (ctx : string) (items : list string)
    (it : ShoppingItem.t) : ShoppingItem.t :=
  if decide (ShoppingItem.name it ∈ items ∧ ShoppingItem.context it = ctx)
  then ShoppingItem.set_status "have" it
  else it.

(** The bill a checkout files. *)
Definition supermarket_bill (str : Qc → string) (is_cat_mode : bool)
    (today c_payer : string) (c_debtors : list string)
    (cart : list (string * Qc)) : Bill.t :=
  {| Bill.date := today; Bill.amount := cart_total cart;
     Bill.category := "Supermercado"; Bill.description := desc_str str cart;
     Bill.payer := c_payer; Bill.debtors := c_debtors;
     Bill.context := context_id is_cat_mode |}.

(** State of a furniture entry [y] at position [j] once the confirm loop has
    visited the positions below [k], the pending item being the dict [x] at
    position [i]. *)
Definition bought_upto (x : FurnitureItem.t) (i k j : nat)
    (y : FurnitureItem.t) : FurnitureItem.t :=
  if decide ((j < k)%nat ∧ (j ≤ i)%nat ∧ y = x)
  then FurnitureItem.set_status "bought" y
  else y.

(** Every bill of the document has a non-negative amount. *)
Definition amounts_nonneg (d : Data) : Prop :=
  Forall (λ b, 0 ≤ Bill.amount b) (bills d).

(** The bill a furniture confirmation files. *)
Definition furniture_bill (is_cat_mode : bool) (today : string)
    (real_price : Qc) (p_payer : string) (p_debtors : list string)
    (item : FurnitureItem.t) : Bill.t :=
  {| Bill.date := today; Bill.amount := real_price;
     Bill.category := "Muebles";
     Bill.description := "Compra Mueble: " +:+ FurnitureItem.name item;
     Bill.payer := p_payer; Bill.debtors := p_debtors;
     Bill.context := context_id is_cat_mode |}.

(** ** Net position of a participant, bill by bill *)

(** The share [amount / len(debtors)] of a bill. *)
Definition share (b : Bill.t) : Qc :=
  Bill.amount b / Qc_of_Z (Z.of_nat (length (Bill.debtors b))).

(** How many entries of the debtor list are not the payer. *)
Definition others (b : Bill.t) : nat :=
  length (filter (λ d, d ≠ Bill.payer b) (Bill.debtors b)).

(** How many times [u] is listed. *)
Definition occurrences (u : string) (l : list string) : nat :=
  length (filter (λ d, d = u) l).

(** What one bill adds to the balance of [u]: the payer collects a share
    from every other debtor entry, anyone else pays a share for each of
    their entries. *)
Definition net (b : Bill.t) (u : string) : Qc :=
  if decide (u = Bill.payer b)
  then share b * Qc_of_Z (Z.of_nat (others b))
  else - (share b * Qc_of_Z (Z.of_nat (occurrences u (Bill.debtors b)))).

Definition net_total (bills_list : list Bill.t) (u : string) : Qc :=
  foldr (λ b acc, net b u + acc) 0 bills_list.

(** What one pass of the body of [for d in debtors] adds to the balance of
    [u]. *)
Definition delta (payer : string) (split_amount : Qc) (d u : string) : Qc :=
  if decide (d = payer) then 0
  else (if decide (u = payer) then split_amount else 0)
       - (if decide (u = d) then split_amount else 0).

(** The line shown to the other party of a two-person ledger. *)
Definition opposite (st : Standing) : Standing :=
  match st with
  | Recupera => Debe
  | Debe => Recupera
  | PazYSalvo => PazYSalvo
  end.

(** Every bill names only members of the group of its own context, as the
    forms' select boxes offer them. *)
Definition bills_by_members (d : Data) : Prop :=
  Forall (λ b, ∀ is_cat_mode, Bill.context b = context_id is_cat_mode →
                 drawn_from (current_users is_cat_mode) b) (bills d).

(** Every task of context [ctx] has one of the statuses the select box
    offers. *)
Definition statuses_known (ctx : string) (ts : list Task.t) : Prop :=
  Forall (λ t, get_context t = Some ctx → Task.status t ∈ STATUS_OPTIONS) ts.

(** The pending tasks of [me] in the view of context [ctx]. *)
Definition pending (me ctx : string) (ts : list Task.t) : list Task.t :=
  my_tasks me (get_context_data ctx ts).

(** The keys of the cart are distinct, as those of a dict are. *)
Definition cart_keys_distinct (cart : list (string * Qc)) : Prop :=
  NoDup (cart.*1).

(** The pending furniture purchase, if any, designates an entry of the
    furniture list. *)
Definition pending_valid (s : Session) : Prop :=
  ∀ i, temp_furn_buy s = Some i → is_Some (furniture (data s) !! i).

(** The pending purchase designates a wish of the furniture list, and no
    entry listed before it equals it field by field. *)
Definition pending_first (s : Session) : Prop :=
  ∀ i, temp_furn_buy s = Some i →
    ∃ x, furniture (data s) !! i = Some x
         ∧ FurnitureItem.status x = "wish"
         ∧ ∀ j, (j < i)%nat → furniture (data s) !! j ≠ Some x.

(** ** Runs of the binary64 ledger in which nothing is rounded *)

(** The value of a float known to be finite. *)
Definition val (f : spec_float) : Qc := default 0 (Binary64.value f).









(** The share of the bill is within the range of binary64. *)
Definition share_fits (b : Bill.t) : Prop :=
  Binary64.truediv (Bill.amount b) (length (Bill.debtors b))
  ≠ Raise OverflowError.

Global Instance share_fits_dec (b : Bill.t) : Decision (share_fits b).
Proof. unfold share_fits. apply _. Defined.

(** The exact sum of the values of the balances. *)
Definition total (m : list (string * spec_float)) : Qc :=
  foldr (λ kv acc, val kv.2 + acc) 0 m.

(** The keys of the balances, as a set. *)
Definition keys (m : list (string * spec_float)) : gset string :=
  list_to_set (m.*1).


(** ** Sample data *)

Definition bill_300 : Bill.t :=
  {| Bill.date := "2024-03-01"; Bill.amount := Qc_of_Z 300;
     Bill.category := "Comida"; Bill.description := "mercado";
     Bill.payer := "Ale"; Bill.debtors := ["Ale"; "Ferb"; "Fandi"];
     Bill.context := "house" |}.

Definition bill_self : Bill.t :=
  {| Bill.date := "2024-03-02"; Bill.amount := Qc_of_Z 100;
     Bill.category := "Salida"; Bill.description := "cine";
     Bill.payer := "Ferb"; Bill.debtors := ["Ferb"];
     Bill.context := "house" |}.

Definition bill_nobody : Bill.t :=
  {| Bill.date := "2024-03-03"; Bill.amount := Qc_of_Z 100;
     Bill.category := "Hogar"; Bill.description := "escoba";
     Bill.payer := "Fandi"; Bill.debtors := [];
     Bill.context := "house" |}.

(** Paid by a visitor for nobody but the visitor. *)
Definition bill_visitor_self : Bill.t :=
  {| Bill.date := "2024-03-04"; Bill.amount := Qc_of_Z 100;
     Bill.category := "Salida"; Bill.description := "taxi";
     Bill.payer := "Zed"; Bill.debtors := ["Zed"];
     Bill.context := "house" |}.

(** Paid by a visitor for a roomie. *)
Definition bill_visitor : Bill.t :=
  {| Bill.date := "2024-03-05"; Bill.amount := Qc_of_Z 100;
     Bill.category := "Comida"; Bill.description := "pizza";
     Bill.payer := "Zed"; Bill.debtors := ["Ale"];
     Bill.context := "house" |}.

Definition milk_house : ShoppingItem.t :=
  {| ShoppingItem.name := "milk"; ShoppingItem.status := "buy";
     ShoppingItem.context := "house" |}.

Definition milk_cat : ShoppingItem.t :=
  {| ShoppingItem.name := "milk"; ShoppingItem.status := "buy";
     ShoppingItem.context := "cat" |}.

Definition bread_house : ShoppingItem.t :=
  {| ShoppingItem.name := "bread"; ShoppingItem.status := "buy";
     ShoppingItem.context := "house" |}.

Definition bread_cat : ShoppingItem.t :=
  {| ShoppingItem.name := "bread"; ShoppingItem.status := "have";
     ShoppingItem.context := "cat" |}.

Definition sample_shopping : list ShoppingItem.t :=
  [milk_cat; milk_house; bread_house; bread_cat].

(** [str] on the whole numbers entered in the price widget. *)
Definition str_integral (q : Qc) : string :=
  pretty (Qnum q `div` Zpos (Qden q))%Z.

Definition sample_cart : list (string * Qc) :=
  [("milk", Qc_of_Z 100); ("bread", Qc_of_Z 50)].

Definition session_shopping : Session :=
  {| data := {| tasks := []; bills := [bill_300];
                shopping := sample_shopping; furniture := [] |};
     shopping_cart := sample_cart;
     temp_furn_buy := None |}.

(** Two items in the cart, none priced yet. *)
Definition session_unpriced : Session :=
  {| data := data session_shopping;
     shopping_cart := [("milk", 0); ("bread", 0)];
     temp_furn_buy := None |}.

Definition empty_session : Session :=
  {| data := empty_data; shopping_cart := []; temp_furn_buy := None |}.

Definition sofa : FurnitureItem.t :=
  {| FurnitureItem.name := "sofa"; FurnitureItem.estimate := Qc_of_Z 5000;
     FurnitureItem.date := "Sin fecha"; FurnitureItem.status := "wish";
     FurnitureItem.context := "house" |}.

(** A wish whose purchase is started, and the same wish entered once more
    before the purchase is confirmed. *)
Definition session_sofa_twice : Session :=
  add_furn false "sofa" (Qc_of_Z 5000) "Sin fecha"
    (furn_buy false 0
       (add_furn false "sofa" (Qc_of_Z 5000) "Sin fecha" empty_session)).

(** The same wish entered twice, before any purchase is started. *)
Definition session_sofa_sofa : Session :=
  add_furn false "sofa" (Qc_of_Z 5000) "Sin fecha"
    (add_furn false "sofa" (Qc_of_Z 5000) "Sin fecha" empty_session).

(** One wish, its purchase started. *)
Definition session_one_sofa : Session :=
  furn_buy false 0
    (add_furn false "sofa" (Qc_of_Z 5000) "Sin fecha" empty_session).

Definition bill_cat_food : Bill.t :=
  {| Bill.date := "2024-03-07"; Bill.amount := Qc_of_Z 100;
     Bill.category := "Comida"; Bill.description := "croquetas";
     Bill.payer := "Ale"; Bill.debtors := ["Ale"; "Fandi"];
     Bill.context := "cat" |}.

Definition session_cat : Session :=
  {| data := {| tasks := []; bills := [bill_300; bill_cat_food];
                shopping := sample_shopping; furniture := [] |};
     shopping_cart := [];
     temp_furn_buy := None |}.

Definition task_dishes : Task.t :=
  {| Task.id := "1709900000.0"; Task.title := "platos";
     Task.assignees := ["Ale"; "Ferb"]; Task.status := "Pendiente";
     Task.importance := 2; Task.created := "2024-03-08";
     Task.due := "Sin fecha"; Task.context := "house" |}.

Definition task_litter : Task.t :=
  {| Task.id := "1709900100.0"; Task.title := "arenero";
     Task.assignees := ["Ale"; "Fandi"]; Task.status := "En Progreso";
     Task.importance := 3; Task.created := "2024-03-08";
     Task.due := "2024-03-10"; Task.context := "cat" |}.

(** A task whose stored status is not one the select box offers. *)
Definition task_odd : Task.t :=
  {| Task.id := "1709900200.0"; Task.title := "basura";
     Task.assignees := ["Ferb"]; Task.status := "Hecho";
     Task.importance := 1; Task.created := "2024-03-08";
     Task.due := "Sin fecha"; Task.context := "house" |}.

Definition session_tasks : Session :=
  {| data := {| tasks := [task_litter; task_dishes]; bills := [];
                shopping := []; furniture := [] |};
     shopping_cart := [];
     temp_furn_buy := None |}.

(** Milk is in the cart at 100, bread is not in the cart. *)
Definition session_milk_only : Session :=
  {| data := data session_shopping;
     shopping_cart := [("milk", Qc_of_Z 100)];
     temp_furn_buy := None |}.

Definition lamp : FurnitureItem.t :=
  {| FurnitureItem.name := "lampara"; FurnitureItem.estimate := Qc_of_Z 800;
     FurnitureItem.date := "2024-04-01"; FurnitureItem.status := "wish";
     FurnitureItem.context := "house" |}.

(** Two different wishes, the purchase of the second one started. *)
Definition session_lamp_sofa : Session :=
  {| data := {| tasks := []; bills := []; shopping := [];
                furniture := [lamp; sofa] |};
     shopping_cart := [];
     temp_furn_buy := Some 1%nat |}.



(** 200 and 100, each paid by Ale and split among the three roomies. *)
Definition bill_200 : Bill.t :=
  {| Bill.date := "2024-03-14"; Bill.amount := Qc_of_Z 200;
     Bill.category := "Servicios"; Bill.description := "luz";
     Bill.payer := "Ale"; Bill.debtors := ["Ale"; "Ferb"; "Fandi"];
     Bill.context := "house" |}.

Definition bill_100 : Bill.t :=
  {| Bill.date := "2024-03-15"; Bill.amount := Qc_of_Z 100;
     Bill.category := "Servicios"; Bill.description := "agua";
     Bill.payer := "Ale"; Bill.debtors := ["Ale"; "Ferb"; "Fandi"];
     Bill.context := "house" |}.

(** An integer amount beyond the range of binary64. *)
Definition bill_huge : Bill.t :=
  {| Bill.date := "2024-03-13"; Bill.amount := Qc_of_Z (10 ^ 400);
     Bill.category := "Hogar"; Bill.description := "casa";
     Bill.payer := "Ale"; Bill.debtors := ["Ale"];
     Bill.context := "house" |}.

(** * Properties *)

(** Closed goals decided by evaluation. *)
Ltac by_compute := apply (bool_decide_unpack _); vm_compute; exact I.

(** ** The error monad and loops *)

Lemma for_each_app {S A} (body : S → A → result S) (s : S) (l1 l2 : list A) :
  for_each body s (l1 ++ l2) = s' ← for_each body s l1 ; for_each body s' l2.
Proof.
  revert s. induction l1 as [|x l1 IH]; intros s; simpl; [done|].
  destruct (body s x) as [s'|e]; simpl; [apply IH | done].
Qed.

(** An iteration that leaves the state alone can be dropped from the loop. *)
Lemma for_each_skip {S A} (body : S → A → result S) (s : S) (l1 l2 : list A) x :
  (∀ s', body s' x = Ok s') →
  for_each body s (l1 ++ x :: l2) = for_each body s (l1 ++ l2).
Proof.
  intros Hx. rewrite !for_each_app.
  destruct (for_each body s l1) as [s'|e]; simpl; [|done].
  by rewrite Hx.
Qed.

(** ** Sums of balances *)

Lemma sum_values_empty : sum_values ∅ = 0.
Proof. unfold sum_values. by rewrite map_fold_empty. Qed.

Lemma sum_values_insert_fresh (m : gmap string Qc) k v :
  m !! k = None → sum_values (<[k := v]> m) = sum_values m + v.
Proof.
  intros Hk. unfold sum_values.
  rewrite map_fold_insert_L; [done| |done].
  intros. ring.
Qed.

(** Overwriting the balance of [k] moves the sum by the difference. *)
Lemma sum_values_update (m : gmap string Qc) k x v :
  m !! k = Some x → sum_values (<[k := v]> m) = sum_values m - x + v.
Proof.
  intros Hk.
  rewrite <- (insert_delete_eq m k v).
  rewrite sum_values_insert_fresh by apply lookup_delete_eq.
  rewrite <- (insert_delete_id m k x Hk) at 2.
  rewrite sum_values_insert_fresh by apply lookup_delete_eq.
  ring.
Qed.

Lemma init_balances_from (users : list string) (m : gmap string Qc) :
  sum_values m = 0 →
  (∀ k v, m !! k = Some v → v = 0) →
  let m' := foldl (λ m u, <[u := 0]> m) m users in
  sum_values m' = 0 ∧ dom m' = dom m ∪ list_to_set users.
Proof.
  revert m. induction users as [|u users IH]; intros m Hsum Hzero; simpl.
  - split; [done | set_solver].
  - destruct (IH (<[u := 0]> m)) as [Hs Hd].
    + destruct (m !! u) as [x|] eqn:Hu.
      * rewrite (sum_values_update _ _ x) by done.
        rewrite (Hzero _ _ Hu), Hsum. ring.
      * rewrite sum_values_insert_fresh by done. rewrite Hsum. ring.
    + intros k v. rewrite lookup_insert.
      case_decide; [congruence | apply Hzero].
    + split; [done|]. rewrite Hd, dom_insert_L. set_solver.
Qed.

Lemma init_balances_spec (users : list string) :
  sum_values (init_balances users) = 0
  ∧ dom (init_balances users) = list_to_set users.
Proof.
  destruct (init_balances_from users ∅) as [Hs Hd].
  - apply sum_values_empty.
  - intros k v. by rewrite lookup_empty.
  - split; [done|]. unfold init_balances. rewrite Hd. set_solver.
Qed.

(** ** One transfer, one bill *)

Lemma known_not_unknown keys payer d :
  known_party keys payer d → unknown_party keys payer d → False.
Proof. unfold known_party, unknown_party. naive_solver. Qed.

Lemma getitem_Ok (m : gmap string Qc) k :
  k ∈ dom m → ∃ v, m !! k = Some v ∧ getitem m k = Ok v.
Proof.
  intros [v Hv]%elem_of_dom. exists v. unfold getitem. by rewrite Hv.
Qed.

Lemma getitem_Raise (m : gmap string Qc) k :
  k ∉ dom m → getitem m k = Raise KeyError.
Proof.
  intros Hk%not_elem_of_dom. unfold getitem. by rewrite Hk.
Qed.

Lemma transfer_spec payer share (m : gmap string Qc) d :
  match transfer payer share m d with
  | Ok m' =>
      dom m' = dom m ∧ sum_values m' = sum_values m
      ∧ known_party (dom m) payer d
  | Raise e => e = KeyError ∧ unknown_party (dom m) payer d
  end.
Proof.
  unfold transfer. case_decide as Hd; [|unfold known_party; naive_solver].
  unfold isub, iadd.
  destruct (decide (d ∈ dom m)) as [Hin|Hout]; last first.
  { rewrite getitem_Raise by done. simpl. unfold unknown_party. auto. }
  destruct (getitem_Ok m d Hin) as (x & Hx & ->). simpl.
  destruct (decide (payer ∈ dom m)) as [Hp|Hp]; last first.
  { rewrite getitem_Raise; [simpl; unfold unknown_party; auto|].
    by rewrite dom_insert_L, not_elem_of_union, not_elem_of_singleton. }
  destruct (getitem_Ok m payer Hp) as (y & Hy & _).
  assert (<[d := x - share]> m !! payer = Some y) as Hy'
    by (by rewrite lookup_insert_ne).
  unfold getitem. rewrite Hy'. simpl.
  split; [|split].
  - rewrite !dom_insert_L. set_solver.
  - rewrite (sum_values_update _ _ y) by done.
    rewrite (sum_values_update _ _ x) by done. ring.
  - unfold known_party. auto.
Qed.

Lemma transfers_spec payer share (debtors : list string) (m : gmap string Qc) :
  match for_each (transfer payer share) m debtors with
  | Ok m' =>
      dom m' = dom m ∧ sum_values m' = sum_values m
      ∧ Forall (known_party (dom m) payer) debtors
  | Raise e => e = KeyError ∧ Exists (unknown_party (dom m) payer) debtors
  end.
Proof.
  revert m. induction debtors as [|d debtors IH]; intros m; simpl; [done|].
  pose proof (transfer_spec payer share m d) as Hd.
  destruct (transfer payer share m d) as [m1|e]; simpl.
  - destruct Hd as (Hdom & Hsum & Hk). specialize (IH m1).
    destruct (for_each (transfer payer share) m1 debtors) as [m2|e].
    + destruct IH as (Hdom' & Hsum' & Hall). rewrite Hdom in *.
      split; [done|]. split; [congruence|]. by constructor.
    + destruct IH as [-> Hex]. rewrite Hdom in Hex.
      split; [done|]. by apply Exists_cons_tl.
  - destruct Hd as [-> Hu]. split; [done|]. by apply Exists_cons_hd.
Qed.

Lemma bill_known_not_unknown keys b :
  bill_known keys b → bill_unknown keys b → False.
Proof.
  unfold bill_known, bill_unknown.
  rewrite Forall_forall, Exists_exists. intros Hk (d & Hd & Hu).
  eapply known_not_unknown; eauto.
Qed.

Lemma bill_step_spec (m : gmap string Qc) (b : Bill.t) :
  match bill_step m b with
  | Ok m' =>
      dom m' = dom m ∧ sum_values m' = sum_values m ∧ bill_known (dom m) b
  | Raise e => e = KeyError ∧ bill_unknown (dom m) b
  end.
Proof.
  unfold bill_step, bill_known, bill_unknown.
  destruct (Bill.debtors b) as [|d ds] eqn:Hds; [by repeat split|].
  cbn [truediv length mbind result_bind].
  apply transfers_spec.
Qed.

Lemma ledger_spec (bills_list : list Bill.t) (m : gmap string Qc) :
  match for_each bill_step m bills_list with
  | Ok m' =>
      dom m' = dom m ∧ sum_values m' = sum_values m
      ∧ Forall (bill_known (dom m)) bills_list
  | Raise e => e = KeyError ∧ Exists (bill_unknown (dom m)) bills_list
  end.
Proof.
  revert m. induction bills_list as [|b bs IH]; intros m; simpl; [done|].
  pose proof (bill_step_spec m b) as Hb.
  destruct (bill_step m b) as [m1|e]; simpl.
  - destruct Hb as (Hdom & Hsum & Hk). specialize (IH m1).
    destruct (for_each bill_step m1 bs) as [m2|e].
    + destruct IH as (Hdom' & Hsum' & Hall). rewrite Hdom in *.
      split; [done|]. split; [congruence|]. by constructor.
    + destruct IH as [-> Hex]. rewrite Hdom in Hex.
      split; [done|]. by apply Exists_cons_tl.
  - destruct Hb as [-> Hu]. split; [done|]. by apply Exists_cons_hd.
Qed.

Lemma calculate_debts_spec (users : list string) (bills_list : list Bill.t) :
  match calculate_debts users bills_list with
  | Ok m =>
      dom m = list_to_set users ∧ sum_values m = 0
      ∧ Forall (bill_known (list_to_set users)) bills_list
  | Raise e =>
      e = KeyError ∧ Exists (bill_unknown (list_to_set users)) bills_list
  end.
Proof.
  unfold calculate_debts.
  pose proof (ledger_spec bills_list (init_balances users)) as H.
  destruct (init_balances_spec users) as [Hs Hd].
  rewrite Hd, Hs in H. exact H.
Qed.




Lemma bill_unknown_iff (users : list string) (b : Bill.t) :
  bill_unknown (list_to_set users) b ↔ indexes_stranger users b.
Proof.
  unfold bill_unknown, indexes_stranger, unknown_party.
  rewrite Exists_exists. setoid_rewrite elem_of_list_to_set. naive_solver.
Qed.

Lemma drawn_from_known (users : list string) (b : Bill.t) :
  drawn_from users b → bill_known (list_to_set users) b.
Proof.
  intros [Hp Hd]. unfold bill_known, known_party.
  apply Forall_forall. intros d Hin. right.
  rewrite !elem_of_list_to_set. split; [by apply Hd | done].
Qed.

(** Whenever the ledger returns, the balances are those of the participants
    and they sum to zero. *)
Lemma calculate_debts_Ok_sum (users : list string) (bills_list : list Bill.t)
    (balances : gmap string Qc) :
  calculate_debts users bills_list = Ok balances →
  dom balances = list_to_set users ∧ sum_values balances = 0.
Proof.
  intros Heq. pose proof (calculate_debts_spec users bills_list) as H.
  rewrite Heq in H. naive_solver.
Qed.


(** 300 split among the three roomies, one of whom paid: the payer is owed
    200 and the other two owe 100 each. *)
Lemma calculate_debts_example :
  calculate_debts ROOMIES [bill_300]
  = Ok (<["Ale" := Qc_of_Z 200]>
          (<["Ferb" := Qc_of_Z (-100)]>
             (<["Fandi" := Qc_of_Z (-100)]> ∅))).
Proof. apply (bool_decide_unpack _). by vm_compute. Qed.

(** ** The debt ledger *)



(** C7. A bill with no debtors is skipped before the share is computed:
    the division never raises, for any participants and any bill list, and
    such a bill contributes nothing to any balance. *)
Theorem empty_debtors_skipped (users : list string) :
  (∀ balances b, bill_step balances b ≠ Raise ZeroDivisionError)
  ∧ (∀ bills_list, calculate_debts users bills_list ≠ Raise ZeroDivisionError)
  ∧ (∀ l1 b l2, Bill.debtors b = [] →
       (∀ balances, bill_step balances b = Ok balances)
       ∧ calculate_debts users (l1 ++ b :: l2)
         = calculate_debts users (l1 ++ l2)).
Proof.
  split; [|split].
  - intros m b Heq. pose proof (bill_step_spec m b) as H.
    rewrite Heq in H. by destruct H.
  - intros bs Heq. pose proof (calculate_debts_spec users bs) as H.
    rewrite Heq in H. by destruct H.
  - intros l1 b l2 Hnil.
    assert (∀ balances, bill_step balances b = Ok balances) as Hskip.
    { intros m. unfold bill_step. by rewrite Hnil. }
    split; [done|]. unfold calculate_debts. by apply for_each_skip.
Qed.

Lemma empty_debtors_skipped_witness :
  calculate_debts ROOMIES ([bill_300] ++ bill_nobody :: [bill_self])
  = calculate_debts ROOMIES ([bill_300] ++ [bill_self]).
Proof.
  apply (empty_debtors_skipped ROOMIES). reflexivity.
Defined.

(** ** The ledger in binary64: keys and control flow *)

Lemma b64_getitem_Ok (m : list (string * spec_float)) k :
  k ∈ m.*1 → ∃ v, Binary64.getitem m k = Ok v ∧ v ∈ m.*2.
Proof.
  induction m as [|[k' v'] m IH]; csimpl; [by intros ?%elem_of_nil|].
  intros Hk. case_decide as Hd.
  - exists v'. split; [done|]. by left.
  - apply elem_of_cons in Hk as [->|Hk]; [done|].
    destruct (IH Hk) as (v & Hv & Hin). exists v. split; [done|]. by right.
Qed.

Lemma b64_getitem_Raise (m : list (string * spec_float)) k :
  k ∉ m.*1 → Binary64.getitem m k = Raise KeyError.
Proof.
  induction m as [|[k' v'] m IH]; csimpl; [done|].
  intros Hk. apply not_elem_of_cons in Hk as [Hne Hk].
  rewrite decide_False by done. by apply IH.
Qed.

Lemma b64_setitem_fst k v (m : list (string * spec_float)) :
  k ∈ m.*1 → (Binary64.setitem k v m).*1 = m.*1.
Proof.
  induction m as [|[k' v'] m IH]; csimpl; [by intros ?%elem_of_nil|].
  intros Hk. case_decide as Hd; csimpl in *; [by subst|].
  apply elem_of_cons in Hk as [->|Hk]; [done|]. f_equal. by apply IH.
Qed.

Lemma b64_setitem_keys k v (m : list (string * spec_float)) :
  keys (Binary64.setitem k v m) = {[ k ]} ∪ keys m.
Proof.
  unfold keys. induction m as [|[k' v'] m IH]; csimpl; [set_solver|].
  case_decide as Hd; csimpl in *; [subst; set_solver|].
  rewrite IH. set_solver.
Qed.

Lemma b64_setitem_NoDup k v (m : list (string * spec_float)) :
  NoDup m.*1 → NoDup (Binary64.setitem k v m).*1.
Proof.
  intros Hnd. destruct (decide (k ∈ m.*1)) as [Hin|Hout].
  - by rewrite b64_setitem_fst.
  - assert ((Binary64.setitem k v m).*1 = m.*1 ++ [k]) as ->.
    { clear Hnd. induction m as [|[k' v'] m IH]; csimpl; [done|].
      apply not_elem_of_cons in Hout as [Hne Hout].
      rewrite decide_False by done. csimpl. by rewrite IH. }
    apply NoDup_app. split; [done|]. split; [|apply NoDup_singleton].
    intros x Hx Hx2%list_elem_of_singleton. by subst.
Qed.

Lemma b64_setitem_snd (P : spec_float → Prop) k v
    (m : list (string * spec_float)) :
  Forall P m.*2 → P v → Forall P (Binary64.setitem k v m).*2.
Proof.
  intros Hm Hv. induction m as [|[k' v'] m IH]; csimpl.
  - by repeat constructor.
  - apply Forall_cons in Hm as [Hv' Hm].
    case_decide; csimpl; constructor; auto.
Qed.

Lemma b64_getitem_setitem k v (m : list (string * spec_float)) k' :
  Binary64.getitem (Binary64.setitem k v m) k'
  = if decide (k' = k) then Ok v else Binary64.getitem m k'.
Proof.
  induction m as [|[k0 v0] m IH]; csimpl.
  - repeat case_decide; congruence.
  - repeat (case_decide; csimpl in *; subst); congruence.
Qed.

Lemma b64_init_balances_spec (users : list string) :
  keys (Binary64.init_balances users) = list_to_set users
  ∧ NoDup (Binary64.init_balances users).*1
  ∧ Forall (λ v, v = Binary64.zero) (Binary64.init_balances users).*2.
Proof.
  unfold Binary64.init_balances.
  assert (∀ m : list (string * spec_float),
            NoDup m.*1 → Forall (λ v, v = Binary64.zero) m.*2 →
            let m' := foldl (λ m u, Binary64.setitem u Binary64.zero m) m users
            in keys m' = keys m ∪ list_to_set users
               ∧ NoDup m'.*1 ∧ Forall (λ v, v = Binary64.zero) m'.*2) as H.
  { induction users as [|u users IH]; intros m Hnd Hz; csimpl.
    - split; [set_solver|done].
    - destruct (IH (Binary64.setitem u Binary64.zero m)) as (Hk & Hn & Hv).
      + by apply b64_setitem_NoDup.
      + by apply b64_setitem_snd.
      + split; [|done]. rewrite Hk, b64_setitem_keys. set_solver. }
  destruct (H []) as (Hk & Hn & Hv); [constructor|constructor|].
  split; [|done]. rewrite Hk. unfold keys. set_solver.
Qed.

Lemma elem_of_keys (m : list (string * spec_float)) k :
  k ∈ keys m ↔ k ∈ m.*1.
Proof. unfold keys. by rewrite elem_of_list_to_set. Qed.

Lemma keys_fst (m m' : list (string * spec_float)) :
  m'.*1 = m.*1 → keys m' = keys m.
Proof. unfold keys. by intros ->. Qed.

Lemma b64_transfer_spec payer s (m : list (string * spec_float)) d :
  match Binary64.transfer payer s m d with
  | Ok m' => m'.*1 = m.*1 ∧ known_party (keys m) payer d
  | Raise e => e = KeyError ∧ unknown_party (keys m) payer d
  end.
Proof.
  unfold Binary64.transfer.
  case_decide as Hd; [|unfold known_party; naive_solver].
  unfold Binary64.isub, Binary64.iadd.
  destruct (decide (d ∈ m.*1)) as [Hin|Hout]; last first.
  { rewrite b64_getitem_Raise by done. csimpl. unfold unknown_party.
    rewrite elem_of_keys. auto. }
  destruct (b64_getitem_Ok m d Hin) as (x & -> & _). csimpl.
  rewrite b64_getitem_setitem, decide_False by done.
  destruct (decide (payer ∈ m.*1)) as [Hp|Hp]; last first.
  { rewrite b64_getitem_Raise by done. csimpl. unfold unknown_party.
    rewrite !elem_of_keys. auto. }
  destruct (b64_getitem_Ok m payer Hp) as (y & -> & _). csimpl.
  split.
  - rewrite b64_setitem_fst; rewrite b64_setitem_fst; done.
  - unfold known_party. rewrite !elem_of_keys. auto.
Qed.

Lemma b64_transfers_spec payer s (debtors : list string)
    (m : list (string * spec_float)) :
  match for_each (Binary64.transfer payer s) m debtors with
  | Ok m' => m'.*1 = m.*1 ∧ Forall (known_party (keys m) payer) debtors
  | Raise e => e = KeyError ∧ Exists (unknown_party (keys m) payer) debtors
  end.
Proof.
  revert m. induction debtors as [|d debtors IH]; intros m; csimpl; [done|].
  pose proof (b64_transfer_spec payer s m d) as Hd.
  destruct (Binary64.transfer payer s m d) as [m1|e]; csimpl.
  - destruct Hd as (Hfst & Hk). specialize (IH m1).
    rewrite (keys_fst _ _ Hfst) in IH.
    destruct (for_each (Binary64.transfer payer s) m1 debtors) as [m2|e].
    + destruct IH as (Hfst' & Hall). split; [congruence|]. by constructor.
    + destruct IH as [-> Hex]. split; [done|]. by apply Exists_cons_tl.
  - destruct Hd as [-> Hu]. split; [done|]. by apply Exists_cons_hd.
Qed.

Lemma b64_truediv_cases (a : Qc) (n : nat) :
  n ≠ 0%nat →
  (∃ s, Binary64.truediv a n = Ok s)
  ∨ Binary64.truediv a n = Raise OverflowError.
Proof.
  intros Hn. unfold Binary64.truediv. destruct n as [|n]; [done|].
  destruct (Binary64.quotient _ _); eauto.
Qed.

Lemma share_fits_nil (b : Bill.t) : Bill.debtors b = [] → share_fits b.
Proof. unfold share_fits. by intros ->. Qed.

Lemma b64_bill_step_spec (m : list (string * spec_float)) (b : Bill.t) :
  match Binary64.bill_step m b with
  | Ok m' => m'.*1 = m.*1 ∧ bill_known (keys m) b ∧ share_fits b
  | Raise e =>
      (e = KeyError ∧ bill_unknown (keys m) b ∧ share_fits b)
      ∨ (e = OverflowError ∧ ¬ share_fits b)
  end.
Proof.
  unfold Binary64.bill_step, bill_known, bill_unknown.
  pose proof (share_fits_nil b) as Hnil. unfold share_fits in *.
  destruct (Bill.debtors b) as [|d ds] eqn:Hds; [by auto|]. clear Hnil.
  destruct (b64_truediv_cases (Bill.amount b) (length (d :: ds)))
    as [[s Hs]| Hs]; [done| |]; rewrite Hs; csimpl.
  - pose proof (b64_transfers_spec (Bill.payer b) s (d :: ds) m) as H.
    csimpl in H.
    destruct (_ ← Binary64.transfer (Bill.payer b) s m d; _) as [m'|e].
    + destruct H as [H1 H2]. by repeat split.
    + destruct H as [H1 H2]. left. by repeat split.
  - right. split; [done|]. intros H. by apply H.
Qed.

Lemma b64_ledger_spec (bills_list : list Bill.t)
    (m : list (string * spec_float)) :
  match for_each Binary64.bill_step m bills_list with
  | Ok m' =>
      m'.*1 = m.*1 ∧ Forall (bill_known (keys m)) bills_list
      ∧ Forall share_fits bills_list
  | Raise e =>
      (e = KeyError ∧ Exists (bill_unknown (keys m)) bills_list)
      ∨ (e = OverflowError ∧ Exists (λ b, ¬ share_fits b) bills_list)
  end.
Proof.
  revert m. induction bills_list as [|b bs IH]; intros m; csimpl; [done|].
  pose proof (b64_bill_step_spec m b) as Hb.
  destruct (Binary64.bill_step m b) as [m1|e]; csimpl.
  - destruct Hb as (Hfst & Hk & Hf). specialize (IH m1).
    rewrite (keys_fst _ _ Hfst) in IH.
    destruct (for_each Binary64.bill_step m1 bs) as [m2|e].
    + destruct IH as (Hfst' & Hall & Hfits).
      split; [congruence|]. split; by constructor.
    + destruct IH as [[-> Hex]|[-> Hex]]; [left|right];
        (split; [done|]); by apply Exists_cons_tl.
  - destruct Hb as [(-> & Hu & _)|[-> Hu]]; [left|right];
      (split; [done|]); by apply Exists_cons_hd.
Qed.

Lemma b64_calculate_debts_spec (users : list string)
    (bills_list : list Bill.t) :
  match Binary64.calculate_debts users bills_list with
  | Ok m =>
      keys m = list_to_set users ∧ NoDup m.*1
      ∧ Forall (bill_known (list_to_set users)) bills_list
      ∧ Forall share_fits bills_list
  | Raise e =>
      (e = KeyError ∧ Exists (bill_unknown (list_to_set users)) bills_list)
      ∨ (e = OverflowError ∧ Exists (λ b, ¬ share_fits b) bills_list)
  end.
Proof.
  unfold Binary64.calculate_debts.
  pose proof (b64_ledger_spec bills_list (Binary64.init_balances users)) as H.
  destruct (b64_init_balances_spec users) as (Hk & Hn & _).
  rewrite Hk in H.
  destruct (for_each _ _ _) as [m|e]; [|done].
  destruct H as (Hfst & Hall & Hfits).
  split; [by rewrite (keys_fst _ _ Hfst)|]. split; [by rewrite Hfst|done].
Qed.

(** ** The ledger in binary64: runs without rounding *)



Lemma b64_getitem_snd (m : list (string * spec_float)) k x :
  Binary64.getitem m k = Ok x → x ∈ m.*2.
Proof.
  induction m as [|[k' v'] m IH]; csimpl; [done|].
  case_decide.
  - intros [= ->]. by left.
  - intros Hx. right. by apply IH.
Qed.










(** ** The debt ledger as Python computes it *)




(** C10, as the code has it. When the ledger raises [KeyError], some bill
    has a debtor other than its payer such that this debtor or the payer is
    not a participant. On a list with such a bill the ledger never returns
    balances, and it raises the [KeyError] provided every share is within
    the range of binary64. It returns balances whenever every payer and
    debtor is a participant and every share is within that range. *)
Theorem binary64_calculate_debts_partial (users : list string)
    (bills_list : list Bill.t) :
  (Binary64.calculate_debts users bills_list = Raise KeyError →
   Exists (indexes_stranger users) bills_list)
  ∧ (Exists (indexes_stranger users) bills_list →
     (∀ balances, Binary64.calculate_debts users bills_list ≠ Ok balances)
     ∧ (Forall share_fits bills_list →
        Binary64.calculate_debts users bills_list = Raise KeyError))
  ∧ (Forall (drawn_from users) bills_list → Forall share_fits bills_list →
     ∃ balances, Binary64.calculate_debts users bills_list = Ok balances).
Proof.
  pose proof (b64_calculate_debts_spec users bills_list) as H.
  split; [|split].
  - intros Heq. rewrite Heq in H. destruct H as [[_ Hex]|[? _]]; [|done].
    eapply Exists_impl; [exact Hex|]. intros b. apply bill_unknown_iff.
  - intros Hex.
    assert (∀ balances,
              Binary64.calculate_debts users bills_list ≠ Ok balances) as Hno.
    { intros m Heq. rewrite Heq in H. destruct H as (_ & _ & Hall & _).
      apply Exists_exists in Hex as (b & Hb & Hs).
      rewrite Forall_forall in Hall.
      apply (bill_known_not_unknown _ b (Hall b Hb)).
      by apply bill_unknown_iff. }
    split; [done|]. intros Hfits.
    destruct (Binary64.calculate_debts users bills_list) as [m|e];
      [by destruct (Hno m)|].
    destruct H as [[-> _]|[_ Hover]]; [done|].
    apply Exists_exists in Hover as (b & Hb & Hf).
    rewrite Forall_forall in Hfits. destruct (Hf (Hfits b Hb)).
  - intros Hall Hfits.
    destruct (Binary64.calculate_debts users bills_list) as [m|e];
      [by exists m|].
    exfalso. destruct H as [[_ Hex]|[_ Hover]].
    + apply Exists_exists in Hex as (b & Hb & Hu).
      rewrite Forall_forall in Hall.
      apply (bill_known_not_unknown _ b (drawn_from_known _ _ (Hall b Hb)) Hu).
    + apply Exists_exists in Hover as (b & Hb & Hf).
      rewrite Forall_forall in Hfits. destruct (Hf (Hfits b Hb)).
Qed.

Lemma binary64_calculate_debts_partial_witness :
  Binary64.calculate_debts ROOMIES [bill_300; bill_visitor] = Raise KeyError.
Proof.
  apply (binary64_calculate_debts_partial ROOMIES [bill_300; bill_visitor]).
  - apply Exists_cons_tl, Exists_cons_hd.
    exists "Ale". by_compute.
  - by_compute.
Defined.

(** C10, as stated, fails: a bill whose payer is not a participant raises
    nothing when it has no debtor other than that payer; and a bill whose
    payer is not a participant, with a debtor other than that payer, raises
    no [KeyError] when an earlier bill has a share beyond the range of
    binary64, the division raising [OverflowError] first. *)
Lemma stranger_payer_no_KeyError :
  (Bill.payer bill_visitor_self ∉ ROOMIES)
  ∧ (¬ drawn_from ROOMIES bill_visitor_self)
  ∧ Binary64.calculate_debts ROOMIES [bill_visitor_self]
    = Ok (Binary64.init_balances ROOMIES)
  ∧ Binary64.calculate_debts ROOMIES [bill_visitor_self] ≠ Raise KeyError
  ∧ calculate_debts ROOMIES [bill_visitor_self] = Ok (init_balances ROOMIES)
  ∧ calculate_debts ROOMIES [bill_visitor_self] ≠ Raise KeyError
  ∧ indexes_stranger ROOMIES bill_visitor
  ∧ Binary64.calculate_debts ROOMIES [bill_huge; bill_visitor]
    = Raise OverflowError.
Proof.
  split; [|split; [|split; [|split; [|split; [|split; [|split]]]]]].
  - by_compute.
  - intros [Hp _]. revert Hp. by_compute.
  - vm_compute. reflexivity.
  - by_compute.
  - reflexivity.
  - discriminate.
  - exists "Ale". by_compute.
  - vm_compute. reflexivity.
Qed.

(** Nor is membership enough for the ledger to return: the share of an
    integer amount beyond the largest float raises [OverflowError], before
    any balance is looked up. *)
Lemma huge_share_OverflowError :
  drawn_from ROOMIES bill_huge
  ∧ ∀ users, Binary64.calculate_debts users [bill_huge] = Raise OverflowError.
Proof.
  split; [by_compute|].
  intros users. unfold Binary64.calculate_debts. cbn [for_each].
  assert (∀ m, Binary64.bill_step m bill_huge = Raise OverflowError)
    as ->; [|done].
  intros m. unfold Binary64.bill_step.
  change (Bill.debtors bill_huge) with ["Ale"]. cbn [length].
  assert (Binary64.truediv (Bill.amount bill_huge) 1 = Raise OverflowError)
    as ->; [vm_compute; reflexivity|done].
Qed.

(** With rounding the order of the bills matters: 200 then 100 leaves Ale
    with 200.00000000000003 and a sum of 2^-45 (about 2.8e-14), 100 then 200
    leaves 200 and a sum of 0. *)
Lemma binary64_order_matters :
  Binary64.calculate_debts ROOMIES [bill_200; bill_100]
  = Ok [("Ale", S754_finite false 7036874417766401 (-45));
        ("Ferb", S754_finite true 7036874417766400 (-46));
        ("Fandi", S754_finite true 7036874417766400 (-46))]
  ∧ Binary64.sum_values
      [("Ale", S754_finite false 7036874417766401 (-45));
       ("Ferb", S754_finite true 7036874417766400 (-46));
       ("Fandi", S754_finite true 7036874417766400 (-46))]
    = S754_finite false 4503599627370496 (-97)
  ∧ Binary64.calculate_debts ROOMIES [bill_100; bill_200]
    = Ok [("Ale", S754_finite false 7036874417766400 (-45));
          ("Ferb", S754_finite true 7036874417766400 (-46));
          ("Fandi", S754_finite true 7036874417766400 (-46))]
  ∧ Binary64.sum_values
      [("Ale", S754_finite false 7036874417766400 (-45));
       ("Ferb", S754_finite true 7036874417766400 (-46));
       ("Fandi", S754_finite true 7036874417766400 (-46))]
    = Binary64.zero.
Proof. repeat split; vm_compute; reflexivity. Qed.

(** The control flow of the ledger does not depend on the arithmetic: in
    binary64 too the division by the number of debtors never raises
    [ZeroDivisionError], a bill without debtors is skipped, and a bill whose
    debtors are all the payer makes no transfer once its share is
    computed. *)
Lemma b64_no_ZeroDivisionError (users : list string)
    (bills_list : list Bill.t) :
  Binary64.calculate_debts users bills_list ≠ Raise ZeroDivisionError.
Proof.
  intros Heq. pose proof (b64_calculate_debts_spec users bills_list) as H.
  rewrite Heq in H. by destruct H as [[? _]|[? _]].
Qed.

Lemma b64_bill_step_nobody (m : list (string * spec_float)) (b : Bill.t) :
  Bill.debtors b = [] → Binary64.bill_step m b = Ok m.
Proof. intros Hnil. unfold Binary64.bill_step. by rewrite Hnil. Qed.

Lemma b64_transfer_self payer s (m : list (string * spec_float)) :
  Binary64.transfer payer s m payer = Ok m.
Proof. unfold Binary64.transfer. by rewrite decide_False by auto. Qed.

Lemma b64_bill_step_self (m : list (string * spec_float)) (b : Bill.t) :
  (∀ d, d ∈ Bill.debtors b → d = Bill.payer b) → share_fits b →
  Binary64.bill_step m b = Ok m.
Proof.
  intros Hself Hfits. unfold Binary64.bill_step, share_fits in *.
  destruct (Bill.debtors b) as [|d0 ds] eqn:Hds; [done|].
  destruct (b64_truediv_cases (Bill.amount b) (length (d0 :: ds)))
    as [[s Hs]|Hs]; [done| |done].
  rewrite Hs. cbn [mbind result_bind]. clear Hs Hfits.
  revert Hself. generalize (d0 :: ds). intros l Hself.
  induction l as [|d l IH]; [done|]. cbn [for_each].
  rewrite (Hself d) by (by left). rewrite b64_transfer_self.
  cbn [mbind result_bind]. apply IH. intros d' Hd'. apply Hself. by right.
Qed.

(** ** Context filter *)

Section ContextFilter.
Context {A : Type} `{Contextual A}.
Implicit Types (c : string) (l : list A).

Lemma get_context_data_filter c l :
  get_context_data c l = filter (tagged c) l.
Proof.
  induction l as [|x l IH]; simpl; [done|].
  rewrite filter_cons, IH. unfold tagged at 1.
  destruct (decide (get_context x = Some c)) as [Hx|Hx].
  - by rewrite decide_True.
  - by rewrite decide_False.
Qed.

Lemma get_context_data_app c l1 l2 :
  get_context_data c (l1 ++ l2)
  = get_context_data c l1 ++ get_context_data c l2.
Proof.
  induction l1 as [|x l1 IH]; simpl; [done|].
  case_decide; by rewrite IH.
Qed.

Lemma get_context_data_sublist c l : get_context_data c l `sublist_of` l.
Proof.
  induction l as [|x l IH]; simpl; [constructor|].
  case_decide; by constructor.
Qed.

Lemma elem_of_get_context_data c l x :
  x ∈ get_context_data c l ↔ x ∈ l ∧ tagged c x.
Proof.
  unfold tagged. induction l as [|y l IH]; simpl.
  - rewrite elem_of_nil. naive_solver.
  - case_decide; rewrite ?elem_of_cons, IH; naive_solver.
Qed.

(** Entries that all carry the tag are kept as they are. *)
Lemma get_context_data_id c l :
  Forall (tagged c) l → get_context_data c l = l.
Proof.
  unfold tagged. induction 1 as [|x l Hx _ IH]; simpl; [done|].
  by rewrite decide_True, IH.
Qed.

Lemma get_context_data_mono c l' l :
  l' `sublist_of` l → get_context_data c l' `sublist_of` get_context_data c l.
Proof.
  induction 1 as [|x l1 l2 _ IH|x l1 l2 _ IH]; simpl.
  - constructor.
  - destruct (decide (get_context x = Some c)); [by constructor | done].
  - destruct (decide (get_context x = Some c)); [by constructor | done].
Qed.

Lemma get_context_data_tagged c l : Forall (tagged c) (get_context_data c l).
Proof.
  apply Forall_forall. intros x Hx.
  apply elem_of_get_context_data in Hx. by destruct Hx.
Qed.

(** Dropping an entry of another context is invisible through the filter. *)
Lemma get_context_data_delete c l j x :
  l !! j = Some x → ¬ tagged c x →
  get_context_data c (delete j l) = get_context_data c l.
Proof.
  unfold tagged. revert j. induction l as [|y l IH]; intros j Hj Hx; [done|].
  destruct j as [|j]; simpl in *.
  - simplify_eq. by rewrite decide_False.
  - by rewrite (IH j).
Qed.

End ContextFilter.

(** C8. For every collection and every context id, the filter returns
    exactly the subsequence of the entries whose context field is that id,
    in their original order: the result is a subsequence of the collection,
    its entries are the tagged entries of the collection, and every
    subsequence of tagged entries is a subsequence of the result. Filtering
    the result again with the same id returns it unchanged. *)
Theorem get_context_data_subsequence {A} `{Contextual A}
    (c : string) (l : list A) :
  get_context_data c l `sublist_of` l
  ∧ (∀ x, x ∈ get_context_data c l ↔ x ∈ l ∧ get_context x = Some c)
  ∧ (∀ l', l' `sublist_of` l → Forall (λ x, get_context x = Some c) l' →
           l' `sublist_of` get_context_data c l)
  ∧ get_context_data c (get_context_data c l) = get_context_data c l.
Proof.
  split; [|split; [|split]].
  - apply get_context_data_sublist.
  - apply elem_of_get_context_data.
  - intros l' Hsub Hall.
    rewrite <- (get_context_data_id c l') by done.
    by apply get_context_data_mono.
  - apply get_context_data_id, get_context_data_tagged.
Qed.

Lemma get_context_data_subsequence_witness :
  [milk_house; bread_house] `sublist_of` get_context_data "house" sample_shopping.
Proof.
  apply (get_context_data_subsequence "house" sample_shopping).
  - apply sublist_cons, sublist_skip, sublist_skip, sublist_cons, sublist_nil.
  - apply (bool_decide_unpack _). vm_compute. exact I.
Defined.

(** ** Removing a shopping item *)

Lemma list_remove_spec `{EqDecision A} (x : A) (l : list A) (i : nat) :
  l !! i = Some x →
  ∃ j, (j ≤ i)%nat ∧ l !! j = Some x ∧ (∀ k, (k < j)%nat → l !! k ≠ Some x)
       ∧ list_remove x l = Ok (delete j l).
Proof.
  revert i. induction l as [|y l IH]; intros i Hi; [done|]. simpl.
  destruct (decide (y = x)) as [->|Hne].
  - exists 0%nat. split; [lia|]. split; [done|]. split; [|done].
    intros k Hk. lia.
  - destruct i as [|i]; simpl in Hi; [congruence|].
    destruct (IH i Hi) as (j & Hle & Hj & Hfirst & ->).
    exists (S j). split; [lia|]. split; [done|]. split; [|done].
    intros [|k] Hk; simpl; [congruence | apply Hfirst; lia].
Qed.

Lemma list_remove_absent `{EqDecision A} (x : A) (l : list A) :
  x ∉ l → list_remove x l = Raise ValueError.
Proof.
  induction l as [|y l IH]; intros Hx; simpl; [done|].
  apply not_elem_of_cons in Hx as [Hne Hx].
  rewrite decide_False by done. by rewrite IH.
Qed.

Lemma names_unique_lookup (sh : list ShoppingItem.t) i j item :
  names_unique sh → sh !! i = Some item → sh !! j = Some item → i = j.
Proof.
  unfold names_unique. intros Hnd Hi Hj.
  eapply NoDup_lookup; [exact Hnd| |]; rewrite list_lookup_fmap.
  - by rewrite Hi.
  - by rewrite Hj.
Qed.

(** C9. Removing a shopping item drops one entry equal to it in name, status
    and context (the first such entry, which is the selected one when names
    are unique per context) and leaves every entry filed under another
    context, same-named or not, as it was; the rest of the document is
    untouched. With the item in "house" the other context is "cat", and
    the other way round. *)
Theorem shopping_remove_frame (s : Session) (i : nat)
    (item : ShoppingItem.t) :
  shopping (data s) !! i = Some item →
  ∃ j s',
    shopping_remove item s = Ok s'
    ∧ (j ≤ i)%nat ∧ shopping (data s) !! j = Some item
    ∧ shopping (data s') = delete j (shopping (data s))
    ∧ (names_unique (shopping (data s)) → j = i)
    ∧ (∀ c, c ≠ ShoppingItem.context item →
         get_context_data c (shopping (data s'))
         = get_context_data c (shopping (data s)))
    ∧ tasks (data s') = tasks (data s)
    ∧ bills (data s') = bills (data s)
    ∧ furniture (data s') = furniture (data s)
    ∧ shopping_cart s' = shopping_cart s
    ∧ temp_furn_buy s' = temp_furn_buy s.
Proof.
  intros Hi.
  destruct (list_remove_spec item _ i Hi) as (j & Hle & Hj & _ & Hrm).
  exists j. eexists. unfold shopping_remove. rewrite Hrm. cbn.
  split; [reflexivity|]. repeat split; try done.
  - intros Hu. by eapply names_unique_lookup.
  - intros c Hc. eapply get_context_data_delete; [exact Hj|].
    unfold tagged, get_context, ShoppingItem_contextual. congruence.
Qed.

Lemma shopping_remove_frame_witness :
  ∃ j s',
    shopping_remove milk_house session_shopping = Ok s'
    ∧ (j ≤ 1)%nat ∧ shopping (data session_shopping) !! j = Some milk_house
    ∧ shopping (data s') = delete j (shopping (data session_shopping))
    ∧ (names_unique (shopping (data session_shopping)) → j = 1%nat)
    ∧ (∀ c, c ≠ ShoppingItem.context milk_house →
         get_context_data c (shopping (data s'))
         = get_context_data c (shopping (data session_shopping)))
    ∧ tasks (data s') = tasks (data session_shopping)
    ∧ bills (data s') = bills (data session_shopping)
    ∧ furniture (data s') = furniture (data session_shopping)
    ∧ shopping_cart s' = shopping_cart session_shopping
    ∧ temp_furn_buy s' = temp_furn_buy session_shopping.
Proof.
  apply (shopping_remove_frame session_shopping 1 milk_house). reflexivity.
Defined.

(** [shopping_add] keeps names unique per context. *)
Lemma name_taken_false (new_item : string) (l : list ShoppingItem.t) :
  name_taken new_item l = false →
  ∀ i, i ∈ l → ShoppingItem.name i ≠ new_item.
Proof.
  unfold name_taken. induction l as [|y l IH]; simpl; intros Hf i Hi.
  - by apply elem_of_nil in Hi.
  - apply orb_false_iff in Hf as [Hy Hl].
    apply elem_of_cons in Hi as [->|Hi]; [|by apply IH].
    by apply bool_decide_eq_false in Hy.
Qed.

Lemma shopping_add_names_unique (is_cat_mode : bool) (new_item : string)
    (s : Session) :
  names_unique (shopping (data s)) →
  names_unique (shopping (data (shopping_add is_cat_mode new_item s))).
Proof.
  intros Hu. unfold shopping_add.
  case_bool_decide; [done|].
  destruct (name_taken _ _) eqn:Htaken; [done|]. cbn.
  unfold names_unique in *. rewrite fmap_app. apply NoDup_app.
  split; [done|]. split; [|apply NoDup_singleton].
  intros [n c] Hin Hnew. apply list_elem_of_singleton in Hnew.
  apply list_elem_of_fmap in Hin as (it & Heq & Hit). cbn in *. simplify_eq.
  eapply (name_taken_false _ _ Htaken it); [|done].
  apply elem_of_get_context_data. split; [done|].
  unfold tagged, get_context, ShoppingItem_contextual. congruence.
Qed.

(** ** Checkout *)

Lemma cart_total_nil : cart_total [] = 0.
Proof. reflexivity. Qed.

Lemma mark_have_restock (ctx item_name : string) (sh : list ShoppingItem.t) :
  mark_have ctx item_name sh = map (restock ctx [item_name]) sh.
Proof.
  unfold mark_have, restock. apply map_ext. intros it.
  destruct (decide (ShoppingItem.name it = item_name
                    ∧ ShoppingItem.context it = ctx)) as [[Hn Hc]|Hno].
  - rewrite decide_True; [done|]. split; [|done]. rewrite Hn. by left.
  - rewrite decide_False; [done|]. intros [Hin Hc]. apply Hno.
    apply list_elem_of_singleton in Hin. done.
Qed.

Lemma restock_cons (ctx n : string) (items : list string)
    (it : ShoppingItem.t) :
  restock ctx items (restock ctx [n] it) = restock ctx (n :: items) it.
Proof.
  unfold restock.
  destruct (decide (ShoppingItem.name it ∈ [n]
                    ∧ ShoppingItem.context it = ctx)) as [[Hn Hc]|Hno].
  - rewrite (decide_True (P := _ ∈ n :: items ∧ _)).
    + by case_decide.
    + apply list_elem_of_singleton in Hn. split; [|done]. rewrite Hn. by left.
  - destruct (decide (ShoppingItem.name it ∈ items
                      ∧ ShoppingItem.context it = ctx)) as [[Hi Hc]|Hno'].
    + rewrite decide_True; [done|]. split; [by right | done].
    + rewrite decide_False; [done|]. intros [Hin Hc].
      apply elem_of_cons in Hin as [Hin|Hin].
      * apply Hno. split; [|done]. rewrite Hin. by left.
      * by apply Hno'.
Qed.

Lemma restock_nil (ctx : string) (it : ShoppingItem.t) : restock ctx [] it = it.
Proof.
  unfold restock. rewrite decide_False; [done|].
  intros [Hin _]. by apply elem_of_nil in Hin.
Qed.

(** The two nested loops of step 3 amount to one pass over the list. *)
Lemma update_inventory_restock (ctx : string) (items : list string)
    (sh : list ShoppingItem.t) :
  update_inventory ctx items sh = map (restock ctx items) sh.
Proof.
  unfold update_inventory. revert sh.
  induction items as [|n items IH]; intros sh; simpl.
  - rewrite <- (map_id sh) at 1. apply map_ext. intros it.
    by rewrite restock_nil.
  - rewrite IH, mark_have_restock, map_map. apply map_ext.
    intros it. apply restock_cons.
Qed.

Lemma checkout_positive (str : Qc → string) (is_cat_mode : bool)
    (today c_payer : string) (c_debtors : list string) (s : Session) :
  0 < cart_total (shopping_cart s) →
  checkout str is_cat_mode today c_payer c_debtors s
  = {| data :=
         {| tasks := tasks (data s);
            bills := bills (data s) ++
                       [supermarket_bill str is_cat_mode today c_payer
                          c_debtors (shopping_cart s)];
            shopping := map (restock (context_id is_cat_mode)
                               (cart_items (shopping_cart s)))
                          (shopping (data s));
            furniture := furniture (data s) |};
       shopping_cart := [];
       temp_furn_buy := temp_furn_buy s |}.
Proof.
  intros Hpos. unfold checkout. rewrite decide_True by done.
  unfold with_shopping, append_bill. cbn.
  by rewrite update_inventory_restock.
Qed.

Lemma checkout_not_positive (str : Qc → string) (is_cat_mode : bool)
    (today c_payer : string) (c_debtors : list string) (s : Session) :
  ¬ 0 < cart_total (shopping_cart s) →
  checkout str is_cat_mode today c_payer c_debtors s = s.
Proof. intros Hno. unfold checkout. by rewrite decide_False. Qed.

(** C4. With a cart of positive total (hence not empty) the checkout appends
    exactly one bill, of amount the sum of the cart prices and category
    Supermercado, with the given payer, debtors and context; every shopping
    item whose name is in the cart and whose context is the active one ends
    with status have, its name and context as before; every item of another
    context, same-named or not, is left as it was; the cart ends empty and
    the rest of the session is untouched. *)
Theorem checkout_success (str : Qc → string) (is_cat_mode : bool)
    (today c_payer : string) (c_debtors : list string) (s : Session) :
  0 < cart_total (shopping_cart s) →
  let s' := checkout str is_cat_mode today c_payer c_debtors s in
  let new_bill :=
    {| Bill.date := today;
       Bill.amount := cart_total (shopping_cart s);
       Bill.category := "Supermercado";
       Bill.description := desc_str str (shopping_cart s);
       Bill.payer := c_payer; Bill.debtors := c_debtors;
       Bill.context := context_id is_cat_mode |} in
  shopping_cart s ≠ []
  ∧ bills (data s') = bills (data s) ++ [new_bill]
  ∧ length (shopping (data s')) = length (shopping (data s))
  ∧ (∀ j it, shopping (data s) !! j = Some it →
       ShoppingItem.name it ∈ cart_items (shopping_cart s) →
       ShoppingItem.context it = context_id is_cat_mode →
       shopping (data s') !! j = Some (ShoppingItem.set_status "have" it)
       ∧ shopping (data s') !! j
         = Some {| ShoppingItem.name := ShoppingItem.name it;
                   ShoppingItem.status := "have";
                   ShoppingItem.context := ShoppingItem.context it |})
  ∧ (∀ j it, shopping (data s) !! j = Some it →
       ShoppingItem.context it ≠ context_id is_cat_mode →
       shopping (data s') !! j = Some it)
  ∧ (∀ j it, shopping (data s) !! j = Some it →
       ShoppingItem.name it ∉ cart_items (shopping_cart s) →
       shopping (data s') !! j = Some it)
  ∧ shopping_cart s' = []
  ∧ tasks (data s') = tasks (data s)
  ∧ furniture (data s') = furniture (data s)
  ∧ temp_furn_buy s' = temp_furn_buy s.
Proof.
  intros Hpos. cbv zeta. rewrite checkout_positive by done. cbn.
  split.
  { intros Hnil. rewrite Hnil, cart_total_nil in Hpos.
    by apply Qclt_not_le in Hpos. }
  split; [done|]. split; [by rewrite length_map|].
  split; [|split; [|split]]; [| | |done].
  - intros j it Hj Hn Hc. rewrite list_lookup_fmap, Hj. cbn.
    unfold restock. by rewrite decide_True.
  - intros j it Hj Hc. rewrite list_lookup_fmap, Hj. cbn.
    unfold restock. rewrite decide_False; [done|]. naive_solver.
  - intros j it Hj Hn. rewrite list_lookup_fmap, Hj. cbn.
    unfold restock. rewrite decide_False; [done|]. naive_solver.
Qed.

Lemma checkout_success_witness :
  shopping (data session_shopping)
  = [milk_cat; milk_house; bread_house; bread_cat]
  ∧ ShoppingItem.status milk_house = "buy"
  ∧ shopping
      (data (checkout str_integral false "2024-03-10" "Ale" ROOMIES
               session_shopping)) !! 1%nat
    = Some {| ShoppingItem.name := "milk"; ShoppingItem.status := "have";
              ShoppingItem.context := "house" |}
  ∧ shopping
      (data (checkout str_integral false "2024-03-10" "Ale" ROOMIES
               session_shopping)) !! 2%nat
    = Some {| ShoppingItem.name := "bread"; ShoppingItem.status := "have";
              ShoppingItem.context := "house" |}
  ∧ shopping
      (data (checkout str_integral false "2024-03-10" "Ale" ROOMIES
               session_shopping)) !! 0%nat
    = Some milk_cat
  ∧ bills (data (checkout str_integral false "2024-03-10" "Ale" ROOMIES
                   session_shopping))
    = [bill_300;
       {| Bill.date := "2024-03-10"; Bill.amount := Qc_of_Z 150;
          Bill.category := "Supermercado";
          Bill.description := "milk (100), bread (50)";
          Bill.payer := "Ale"; Bill.debtors := ["Ale"; "Ferb"; "Fandi"];
          Bill.context := "house" |}].
Proof.
  destruct (checkout_success str_integral false "2024-03-10" "Ale" ROOMIES
              session_shopping) as (_ & Hbills & _ & Hhave & Hother & _).
  - apply (bool_decide_unpack _). vm_compute. exact I.
  - split; [reflexivity|]. split; [reflexivity|].
    split; [|split; [|split]].
    + apply (Hhave 1%nat milk_house); [reflexivity| |reflexivity].
      apply (bool_decide_unpack _). vm_compute. exact I.
    + apply (Hhave 2%nat bread_house); [reflexivity| |reflexivity].
      apply (bool_decide_unpack _). vm_compute. exact I.
    + apply (Hother 0%nat milk_cat); [reflexivity|].
      apply (bool_decide_unpack _). vm_compute. exact I.
    + rewrite Hbills. apply (bool_decide_unpack _). vm_compute. exact I.
Defined.

(** The checkout of the specification's example, evaluated. *)
Lemma checkout_example :
  let s' := checkout str_integral false "2024-03-10" "Ale" ROOMIES
              session_shopping in
  shopping (data s')
  = [milk_cat; ShoppingItem.set_status "have" milk_house;
     ShoppingItem.set_status "have" bread_house; bread_cat]
  ∧ shopping_cart s' = []
  ∧ length (bills (data s')) = 2%nat.
Proof. by vm_compute. Qed.

(** C3, as the code has it. The checkout is a no-op (no bill, no status
    change, document and cart unchanged) whenever the cart total is 0. An
    empty debtor list is not rejected: with a positive total the bill is
    filed with no debtors. *)
Theorem checkout_gate (str : Qc → string) (is_cat_mode : bool)
    (today c_payer : string) (c_debtors : list string) (s : Session) :
  (cart_total (shopping_cart s) = 0 →
   checkout str is_cat_mode today c_payer c_debtors s = s)
  ∧ (0 < cart_total (shopping_cart s) → c_debtors = [] →
     let s' := checkout str is_cat_mode today c_payer c_debtors s in
     s' ≠ s
     ∧ bills (data s')
       = bills (data s) ++
           [supermarket_bill str is_cat_mode today c_payer []
              (shopping_cart s)]).
Proof.
  split.
  - intros Hz. apply checkout_not_positive. rewrite Hz.
    apply Qcle_not_lt, Qcle_refl.
  - intros Hpos -> s'. subst s'. rewrite checkout_positive by done. cbn.
    split; [|done]. intros Heq.
    apply (f_equal (λ s, length (bills (data s)))) in Heq. cbn in Heq.
    rewrite length_app in Heq. cbn in Heq. lia.
Qed.

Lemma checkout_gate_witness :
  checkout str_integral false "2024-03-10" "Ale" ROOMIES session_unpriced
  = session_unpriced.
Proof.
  apply (checkout_gate str_integral false "2024-03-10" "Ale" ROOMIES
           session_unpriced).
  apply (bool_decide_unpack _). vm_compute. exact I.
Defined.

(** C3, as stated, fails: with a priced cart and no debtors the checkout
    files a bill that nobody owes. *)
Lemma checkout_accepts_no_debtors :
  let s' := checkout str_integral false "2024-03-10" "Ale" []
              session_shopping in
  s' ≠ session_shopping
  ∧ bills (data s')
    = bills (data session_shopping) ++
        [{| Bill.date := "2024-03-10"; Bill.amount := Qc_of_Z 150;
            Bill.category := "Supermercado";
            Bill.description := "milk (100), bread (50)";
            Bill.payer := "Ale"; Bill.debtors := [];
            Bill.context := "house" |}].
Proof.
  split.
  - apply (bool_decide_unpack _). by vm_compute.
  - apply (bool_decide_unpack _). by vm_compute.
Qed.

(** ** Furniture confirmation *)

Lemma set_status_bought_idem (y : FurnitureItem.t) :
  FurnitureItem.set_status "bought" (FurnitureItem.set_status "bought" y)
  = FurnitureItem.set_status "bought" y.
Proof. reflexivity. Qed.

Lemma bought_upto_0 x i j y : bought_upto x i 0 j y = y.
Proof. unfold bought_upto. rewrite decide_False; [done | lia]. Qed.

Lemma bought_upto_beyond x i k j y :
  (i < j)%nat → bought_upto x i k j y = y.
Proof. intros Hj. unfold bought_upto. rewrite decide_False; [done | lia]. Qed.

Lemma bought_upto_S_other x i k j y :
  j ≠ k → bought_upto x i (S k) j y = bought_upto x i k j y.
Proof.
  intros Hj. unfold bought_upto.
  destruct (decide ((j < k)%nat ∧ (j ≤ i)%nat ∧ y = x)) as [Hd|Hd].
  - rewrite decide_True; [done|]. destruct Hd as (? & ? & ?).
    split; [lia | done].
  - rewrite decide_False; [done|]. intros (? & ? & ?). apply Hd.
    split; [lia | done].
Qed.

(** One iteration of the confirm loop, on the list as the earlier iterations
    left it. *)
Lemma mark_if_equal_step (f : list FurnitureItem.t) i x k :
  f !! i = Some x → (k < length f)%nat →
  mark_if_equal i (imap (bought_upto x i k) f) k
  = imap (bought_upto x i (S k)) f.
Proof.
  intros Hi Hk. destruct (lookup_lt_is_Some_2 f k Hk) as [y Hy].
  unfold mark_if_equal. rewrite !list_lookup_imap, Hy, Hi. cbn.
  assert (bought_upto x i k k y = y) as ->.
  { unfold bought_upto. rewrite decide_False; [done | lia]. }
  apply list_eq. intros j.
  destruct (decide (j = k)) as [->|Hjk]; last first.
  { destruct (decide (y = bought_upto x i k i x)).
    - rewrite list_lookup_insert_ne by done.
      rewrite !list_lookup_imap. destruct (f !! j); [cbn|done].
      by rewrite bought_upto_S_other.
    - rewrite !list_lookup_imap. destruct (f !! j); [cbn|done].
      by rewrite bought_upto_S_other. }
  rewrite (list_lookup_imap (bought_upto x i (S k))), Hy. cbn.
  destruct (decide (k ≤ i)%nat) as [Hle|Hgt].
  - (* the pending item has not been visited yet: it still reads [x] *)
    assert (bought_upto x i k i x = x) as ->.
    { unfold bought_upto. rewrite decide_False; [done | lia]. }
    destruct (decide (y = x)) as [->|Hne].
    + rewrite list_lookup_insert_eq by (by rewrite length_imap).
      unfold bought_upto. rewrite decide_True; [done|].
      split; [lia | done].
    + rewrite list_lookup_imap, Hy. cbn.
      unfold bought_upto. rewrite !decide_False; [done| |]; naive_solver.
  - (* the pending item was visited: it now reads as bought *)
    assert (bought_upto x i k i x = FurnitureItem.set_status "bought" x) as ->.
    { unfold bought_upto. rewrite decide_True; [done|].
      split; [lia|]. split; [lia | done]. }
    rewrite (bought_upto_beyond x i (S k) k y) by lia.
    destruct (decide (y = FurnitureItem.set_status "bought" x)) as [->|Hne].
    + rewrite list_lookup_insert_eq by (by rewrite length_imap).
      by rewrite set_status_bought_idem.
    + rewrite list_lookup_imap, Hy. cbn.
      by rewrite bought_upto_beyond by lia.
Qed.

Lemma mark_prefix (f : list FurnitureItem.t) i x k :
  f !! i = Some x → (k ≤ length f)%nat →
  foldl (mark_if_equal i) f (seq 0 k) = imap (bought_upto x i k) f.
Proof.
  intros Hi. induction k as [|k IH]; intros Hk.
  - cbn. apply list_eq. intros j. rewrite list_lookup_imap.
    destruct (f !! j); [cbn|done]. by rewrite bought_upto_0.
  - rewrite seq_S, foldl_app, IH by lia. cbn.
    apply mark_if_equal_step; [done | lia].
Qed.

(** What the confirm loop does: the pending item, and every entry before it
    in the list that equals it field by field, is set to bought; the entries
    after it are left alone. *)
Lemma mark_bought_spec (f : list FurnitureItem.t) i x :
  f !! i = Some x →
  mark_bought i f
  = imap (λ j y, if decide ((j ≤ i)%nat ∧ y = x)
                 then FurnitureItem.set_status "bought" y else y) f.
Proof.
  intros Hi. unfold mark_bought. rewrite (mark_prefix f i x) by done.
  apply list_eq. intros j. rewrite !list_lookup_imap.
  destruct (f !! j) as [y|] eqn:Hj; [cbn|done]. f_equal.
  apply lookup_lt_Some in Hj. unfold bought_upto.
  destruct (decide ((j ≤ i)%nat ∧ y = x)) as [Hd|Hd].
  - rewrite decide_True; [done|]. naive_solver.
  - rewrite decide_False; [done|]. naive_solver.
Qed.

Lemma furn_checkout_pending (is_cat_mode : bool) (today : string)
    (real_price : Qc) (p_payer : string) (p_debtors : list string)
    (s : Session) i x :
  temp_furn_buy s = Some i → furniture (data s) !! i = Some x →
  furn_checkout is_cat_mode today real_price p_payer p_debtors s
  = {| data :=
         {| tasks := tasks (data s);
            bills := bills (data s) ++
                       [furniture_bill is_cat_mode today real_price p_payer
                          p_debtors x];
            shopping := shopping (data s);
            furniture := mark_bought i (furniture (data s)) |};
       shopping_cart := shopping_cart s;
       temp_furn_buy := None |}.
Proof. intros Ht Hi. unfold furn_checkout. by rewrite Ht, Hi. Qed.

(** The furniture confirmation on any list: one bill of the entered price,
    category Muebles, naming the item; the selected item becomes bought; an
    entry that differs from it in some field, and every entry after it, is
    left as it was; an entry before it that equals it field by field is
    marked as well. *)
Lemma furn_checkout_selected (is_cat_mode : bool) (today : string)
    (real_price : Qc) (p_payer : string) (p_debtors : list string)
    (s : Session) i x :
  temp_furn_buy s = Some i → furniture (data s) !! i = Some x →
  let s' := furn_checkout is_cat_mode today real_price p_payer p_debtors s in
  bills (data s')
  = bills (data s) ++
      [furniture_bill is_cat_mode today real_price p_payer p_debtors x]
  ∧ furniture (data s') !! i = Some (FurnitureItem.set_status "bought" x)
  ∧ (∀ j y, furniture (data s) !! j = Some y → y ≠ x →
       furniture (data s') !! j = Some y)
  ∧ (∀ j y, furniture (data s) !! j = Some y → (i < j)%nat →
       furniture (data s') !! j = Some y)
  ∧ (∀ j, (j < i)%nat → furniture (data s) !! j = Some x →
       furniture (data s') !! j = Some (FurnitureItem.set_status "bought" x)).
Proof.
  intros Ht Hi s'. subst s'.
  rewrite (furn_checkout_pending _ _ _ _ _ _ i x) by done. cbn.
  rewrite (mark_bought_spec _ i x) by done.
  split; [done|]. split; [|split; [|split]].
  - rewrite list_lookup_imap, Hi. cbn. by rewrite decide_True.
  - intros j y Hj Hne. rewrite list_lookup_imap, Hj. cbn.
    rewrite decide_False; [done | naive_solver].
  - intros j y Hj Hlt. rewrite list_lookup_imap, Hj. cbn.
    rewrite decide_False; [done|]. intros [? _]. lia.
  - intros j Hlt Hj. rewrite list_lookup_imap, Hj. cbn.
    rewrite decide_True; [done|]. split; [lia | done].
Qed.

Lemma pending_first_none (s : Session) :
  temp_furn_buy s = None → pending_first s.
Proof. intros Hn i Hi. congruence. Qed.

Lemma pending_first_same (s s' : Session) :
  furniture (data s') = furniture (data s) →
  temp_furn_buy s' = temp_furn_buy s →
  pending_first s → pending_first s'.
Proof. unfold pending_first. intros -> ->. done. Qed.

(** Two buttons for one key: an entry that a drawn wish repeats is not the
    last of pairwise distinct keys. *)
Lemma button_keys_NoDup (is_cat_mode : bool) (f : list FurnitureItem.t)
    (i j : nat) (x : FurnitureItem.t) :
  f !! i = Some x → f !! j = Some x → (j < i)%nat →
  FurnitureItem.status x = "wish" →
  FurnitureItem.context x = context_id is_cat_mode →
  ¬ NoDup (button_keys is_cat_mode i f).
Proof.
  intros Hi Hj Hlt Hw Hc. unfold button_keys.
  rewrite (take_S_r _ _ _ Hi), get_context_data_app.
  unfold wishes. rewrite filter_app, fmap_app.
  intros Hnd. apply NoDup_app in Hnd as (_ & Hdis & _).
  apply (Hdis (FurnitureItem.name x)).
  - apply list_elem_of_fmap. exists x. split; [done|].
    apply list_elem_of_filter. split; [done|].
    apply elem_of_get_context_data. split.
    + apply list_elem_of_lookup. exists j. by rewrite lookup_take_lt.
    + unfold tagged, get_context, FurnitureItem_contextual. by rewrite Hc.
  - apply list_elem_of_fmap. exists x. split; [done|].
    apply list_elem_of_filter. split; [done|].
    apply elem_of_get_context_data. split; [by left|].
    unfold tagged, get_context, FurnitureItem_contextual. by rewrite Hc.
Qed.

(** "Comprar" starts the purchase of a wish that no earlier entry equals. *)
Lemma furn_buy_pending_first (is_cat_mode : bool) (i : nat) (s : Session) :
  pending_first s → pending_first (furn_buy is_cat_mode i s).
Proof.
  intros Hv. unfold furn_buy.
  destruct (furniture (data s) !! i) as [x|] eqn:Hi; [|done].
  case_decide as Hd; [|done]. destruct Hd as (Hw & Hc & Hnd).
  intros j [= <-]. cbn. exists x. split; [done|]. split; [done|].
  intros k Hk Hx. by apply (button_keys_NoDup is_cat_mode _ i k x) in Hnd.
Qed.

(** Every operation of the application keeps the pending purchase a wish
    that no earlier entry of the list equals. *)
Lemma pending_first_kept (str : Qc → string) (is_cat_mode : bool)
    (s : Session) :
  pending_first s →
  (∀ f_name f_est f_date,
     pending_first (add_furn is_cat_mode f_name f_est f_date s))
  ∧ (∀ i, pending_first (furn_buy is_cat_mode i s))
  ∧ (∀ today real_price p_payer p_debtors,
       pending_first
         (furn_checkout is_cat_mode today real_price p_payer p_debtors s))
  ∧ (∀ b_desc b_cat b_amount b_payer b_debtors b_date,
       pending_first
         (add_bill is_cat_mode b_desc b_cat b_amount b_payer b_debtors
            b_date s))
  ∧ (∀ today c_payer c_debtors,
       pending_first (checkout str is_cat_mode today c_payer c_debtors s))
  ∧ (∀ new_item, pending_first (shopping_add is_cat_mode new_item s))
  ∧ (∀ i, pending_first (shopping_have is_cat_mode i s))
  ∧ (∀ i, pending_first (shopping_buy is_cat_mode i s))
  ∧ (∀ item s', shopping_remove item s = Ok s' → pending_first s')
  ∧ (∀ i, pending_first (cart_add is_cat_mode i s))
  ∧ (∀ i price, pending_first (cart_price is_cat_mode i price s))
  ∧ (∀ i s', cart_out is_cat_mode i s = Ok s' → pending_first s')
  ∧ (∀ now_id t_title t_assignees t_imp today t_due,
       pending_first
         (new_task is_cat_mode now_id t_title t_assignees t_imp today t_due s))
  ∧ (∀ i new_status s',
       task_board is_cat_mode i new_status s = Ok s' → pending_first s').
Proof.
  intros Hv.
  assert (∀ st st' i, pending_first (shopping_mark is_cat_mode st st' i s))
    as Hmark.
  { intros st st' i. unfold shopping_mark.
    destruct (shopping (data s) !! i); [|done]. case_decide; [|done].
    by apply (pending_first_same s). }
  repeat split.
  - intros f_name f_est f_date i Hi. cbn in *.
    destruct (Hv i Hi) as (x & Hx & Hw & Hfirst). exists x.
    split; [by apply lookup_app_l_Some|]. split; [done|].
    intros j Hj Hjx. apply (Hfirst j Hj).
    apply lookup_lt_Some in Hx.
    by rewrite lookup_app_l in Hjx by lia.
  - intros i. by apply furn_buy_pending_first.
  - intros. unfold furn_checkout.
    destruct (temp_furn_buy s) as [i|]; [|done].
    destruct (furniture (data s) !! i) as [x|]; [|done].
    by apply pending_first_none.
  - intros. by apply (pending_first_same s).
  - intros. unfold checkout. case_decide; [|done].
    by apply (pending_first_same s).
  - intros. unfold shopping_add. case_bool_decide; [done|].
    destruct (name_taken _ _); [done|]. by apply (pending_first_same s).
  - intros. apply Hmark.
  - intros. apply Hmark.
  - intros item s'. unfold shopping_remove.
    destruct (list_remove item (shopping (data s))); [cbn|done].
    intros [= <-]. by apply (pending_first_same s).
  - intros i. unfold cart_add. destruct (shopping (data s) !! i); [|done].
    case_decide; [|done]. by apply (pending_first_same s).
  - intros i price. unfold cart_price.
    destruct (shopping (data s) !! i); [|done].
    case_decide; [|done]. by apply (pending_first_same s).
  - intros i s'. unfold cart_out. destruct (shopping (data s) !! i).
    + case_decide; [|by intros [= <-]].
      destruct (dict_del _ _); [cbn|done]. intros [= <-].
      by apply (pending_first_same s).
    + by intros [= <-].
  - intros. by apply (pending_first_same s).
  - intros i new_status s'. unfold task_board.
    destruct (board_loop _ _ _ _ _); [cbn|done]. intros [= <-].
    by apply (pending_first_same s).
Qed.

(** Two equal wishes of one context: the page draws the button of the
    first, the second asks for the same key and the run ends there, so the
    purchase of the second cannot be started. *)
Lemma furn_buy_second_of_two :
  furniture (data session_sofa_sofa) = [sofa; sofa]
  ∧ temp_furn_buy (furn_buy false 0 session_sofa_sofa) = Some 0%nat
  ∧ furn_buy false 1 session_sofa_sofa = session_sofa_sofa
  ∧ furn_buy true 1 session_sofa_sofa = session_sofa_sofa.
Proof. repeat split. Qed.

(** C2. The confirmation of a pending purchase, the pending item being a
    wish that no earlier entry of the list equals (which is how "Comprar"
    leaves it and every operation keeps it): the selected entry gets status
    bought and keeps its other fields, every other entry of the list, one
    that equals the selected wish field by field included, is left as it
    was, and one bill is appended, of the entered price, category Muebles,
    its description naming the item. *)
Theorem furn_checkout_marks_selected (is_cat_mode : bool) (today : string)
    (real_price : Qc) (p_payer : string) (p_debtors : list string)
    (s : Session) (i : nat) (x : FurnitureItem.t) :
  pending_first s →
  temp_furn_buy s = Some i → furniture (data s) !! i = Some x →
  let s' := furn_checkout is_cat_mode today real_price p_payer p_debtors s in
  FurnitureItem.status x = "wish"
  ∧ furniture (data s') !! i
    = Some {| FurnitureItem.name := FurnitureItem.name x;
              FurnitureItem.estimate := FurnitureItem.estimate x;
              FurnitureItem.date := FurnitureItem.date x;
              FurnitureItem.status := "bought";
              FurnitureItem.context := FurnitureItem.context x |}
  ∧ (∀ j, j ≠ i → furniture (data s') !! j = furniture (data s) !! j)
  ∧ length (furniture (data s')) = length (furniture (data s))
  ∧ bills (data s')
    = bills (data s) ++
        [{| Bill.date := today; Bill.amount := real_price;
            Bill.category := "Muebles";
            Bill.description := "Compra Mueble: " +:+ FurnitureItem.name x;
            Bill.payer := p_payer; Bill.debtors := p_debtors;
            Bill.context := context_id is_cat_mode |}]
  ∧ tasks (data s') = tasks (data s)
  ∧ shopping (data s') = shopping (data s)
  ∧ shopping_cart s' = shopping_cart s
  ∧ temp_furn_buy s' = None.
Proof.
  intros Hv Ht Hi. cbv zeta.
  destruct (Hv i Ht) as (x' & Hx' & Hw & Hfirst).
  assert (x' = x) as -> by congruence.
  rewrite (furn_checkout_pending _ _ _ _ _ _ i x) by done.
  cbn [data furniture bills tasks shopping shopping_cart temp_furn_buy].
  rewrite (mark_bought_spec _ i x) by done.
  split; [done|]. split; [|split; [|split; [|done]]].
  - rewrite list_lookup_imap, Hi. cbn. by rewrite decide_True.
  - intros j Hj. rewrite list_lookup_imap.
    destruct (furniture (data s) !! j) as [y|] eqn:Hy; [cbn|done].
    rewrite decide_False; [done|]. intros [Hle ->].
    apply (Hfirst j); [lia|done].
  - by rewrite length_imap.
Qed.

Lemma session_sofa_twice_pending_first : pending_first session_sofa_twice.
Proof.
  intros i [= <-]. exists sofa. split; [reflexivity|].
  split; [reflexivity|]. intros j Hj. lia.
Defined.

Lemma furn_checkout_marks_selected_witness :
  furniture (data session_sofa_twice) = [sofa; sofa]
  ∧ furniture
      (data (furn_checkout false "2024-03-10" (Qc_of_Z 4500) "Ale" ROOMIES
               session_sofa_twice)) !! 0%nat
    = Some {| FurnitureItem.name := "sofa";
              FurnitureItem.estimate := Qc_of_Z 5000;
              FurnitureItem.date := "Sin fecha";
              FurnitureItem.status := "bought";
              FurnitureItem.context := "house" |}
  ∧ furniture
      (data (furn_checkout false "2024-03-10" (Qc_of_Z 4500) "Ale" ROOMIES
               session_sofa_twice)) !! 1%nat
    = Some sofa
  ∧ bills
      (data (furn_checkout false "2024-03-10" (Qc_of_Z 4500) "Ale" ROOMIES
               session_sofa_twice))
    = [{| Bill.date := "2024-03-10"; Bill.amount := Qc_of_Z 4500;
          Bill.category := "Muebles";
          Bill.description := "Compra Mueble: sofa";
          Bill.payer := "Ale"; Bill.debtors := ["Ale"; "Ferb"; "Fandi"];
          Bill.context := "house" |}].
Proof.
  destruct (furn_checkout_marks_selected false "2024-03-10" (Qc_of_Z 4500)
              "Ale" ROOMIES session_sofa_twice 0 sofa)
    as (_ & Hsel & Hother & _ & Hbills & _).
  - apply session_sofa_twice_pending_first.
  - reflexivity.
  - reflexivity.
  - split; [reflexivity|]. split; [exact Hsel|].
    split; [by rewrite Hother by lia|]. exact Hbills.
Defined.

(** ** Amounts of the filed bills *)

(** Manual entry: the amount widget is declared with [min_value=0], so the
    form hands over an amount that is not negative. *)
Lemma add_bill_amounts_nonneg (is_cat_mode : bool) (b_desc b_cat : string)
    (b_amount : Qc) (b_payer : string) (b_debtors : list string)
    (b_date : string) (s : Session) :
  0 ≤ b_amount → amounts_nonneg (data s) →
  amounts_nonneg
    (data (add_bill is_cat_mode b_desc b_cat b_amount b_payer b_debtors
             b_date s)).
Proof.
  unfold amounts_nonneg. intros Ha Hs. cbn.
  apply Forall_app. split; [done|]. by repeat constructor.
Qed.

(** Checkout: the gate [cart_total > 0] keeps the amount positive. *)
Lemma checkout_amounts_nonneg (str : Qc → string) (is_cat_mode : bool)
    (today c_payer : string) (c_debtors : list string) (s : Session) :
  amounts_nonneg (data s) →
  amounts_nonneg (data (checkout str is_cat_mode today c_payer c_debtors s)).
Proof.
  unfold amounts_nonneg. intros Hs.
  destruct (decide (0 < cart_total (shopping_cart s))) as [Hpos|Hno].
  - rewrite checkout_positive by done. cbn.
    apply Forall_app. split; [done|]. repeat constructor. cbn.
    by apply Qclt_le_weak.
  - by rewrite checkout_not_positive.
Qed.

(** C5 on the furniture confirmation: the price widget has no lower bound
    and nothing checks the price, so a negative price yields a bill of
    negative amount. *)
Theorem furn_checkout_negative_amount :
  let s := session_one_sofa in
  let s' := furn_checkout false "2024-03-10" (Qc_of_Z (-1)) "Ale" ROOMIES s in
  amounts_nonneg (data s)
  ∧ bills (data s')
    = [{| Bill.date := "2024-03-10"; Bill.amount := Qc_of_Z (-1);
          Bill.category := "Muebles";
          Bill.description := "Compra Mueble: sofa";
          Bill.payer := "Ale"; Bill.debtors := ["Ale"; "Ferb"; "Fandi"];
          Bill.context := "house" |}]
  ∧ ¬ amounts_nonneg (data s').
Proof.
  cbv zeta. split; [constructor|]. split.
  - apply (bool_decide_unpack _). by vm_compute.
  - unfold amounts_nonneg. apply (bool_decide_unpack _). by vm_compute.
Qed.

(** * Further properties of the code *)

(** ** Balances in closed form *)

Lemma Qc_of_nat_S (n : nat) :
  Qc_of_Z (Z.of_nat (S n)) = Qc_of_Z (Z.of_nat n) + 1.
Proof. by rewrite Nat2Z.inj_succ, <- Z.add_1_r, Z2Qc_inj_add. Qed.

Lemma Qc_of_nat_0 : Qc_of_Z (Z.of_nat 0) = 0.
Proof. apply Z2Qc_inj_0. Qed.

Lemma Qc_of_nat_nonneg (n : nat) : 0 ≤ Qc_of_Z (Z.of_nat n).
Proof. rewrite <- Z2Qc_inj_0, <- Z2Qc_inj_le. apply Nat2Z.is_nonneg. Qed.

Lemma init_balances_zero (users : list string) (m : gmap string Qc) u v :
  (∀ k x, m !! k = Some x → x = 0) →
  foldl (λ m u, <[u := 0]> m) m users !! u = Some v → v = 0.
Proof.
  revert m. induction users as [|w users IH]; intros m Hz; simpl; [apply Hz|].
  apply IH. intros k x. rewrite lookup_insert.
  case_decide; [congruence | apply Hz].
Qed.

Lemma init_balances_lookup (users : list string) u :
  u ∈ users → init_balances users !! u = Some 0.
Proof.
  intros Hu. destruct (init_balances_spec users) as [_ Hd].
  assert (u ∈ dom (init_balances users)) as [v Hv]%elem_of_dom
    by (rewrite Hd; by apply elem_of_list_to_set).
  rewrite Hv. f_equal. eapply init_balances_zero; [|exact Hv].
  intros k x. by rewrite lookup_empty.
Qed.

Lemma transfer_lookup payer s (m m' : gmap string Qc) d u :
  transfer payer s m d = Ok m' →
  m' !! u = (λ x, x + delta payer s d u) <$> m !! u.
Proof.
  unfold transfer, delta.
  destruct (decide (d = payer)) as [->|Hd].
  - rewrite decide_False by auto. intros [= <-].
    destruct (m !! u); cbn; [f_equal; ring | done].
  - rewrite decide_True by done. unfold isub, iadd, getitem.
    destruct (m !! d) as [x|] eqn:Hx; [cbn|done].
    rewrite lookup_insert_ne by done.
    destruct (m !! payer) as [y|] eqn:Hy; [cbn|done]. intros [= <-].
    destruct (decide (u = payer)) as [->|Hup].
    + rewrite lookup_insert_eq, Hy. cbn. rewrite decide_False by auto.
      f_equal. ring.
    + rewrite lookup_insert_ne by done.
      destruct (decide (u = d)) as [->|Hud].
      * rewrite lookup_insert_eq, Hx. cbn. f_equal. ring.
      * rewrite lookup_insert_ne by done.
        destruct (m !! u); cbn; [f_equal; ring | done].
Qed.

Lemma transfers_lookup payer s (debtors : list string)
    (m m' : gmap string Qc) u :
  for_each (transfer payer s) m debtors = Ok m' →
  m' !! u
  = (λ x, x + foldr (λ d acc, delta payer s d u + acc) 0 debtors) <$> m !! u.
Proof.
  revert m. induction debtors as [|d l IH]; intros m; simpl.
  - intros [= <-]. destruct (m !! u); cbn; [f_equal; ring | done].
  - destruct (transfer payer s m d) as [m1|e] eqn:Ht; [cbn|done].
    intros Hl. rewrite (IH _ Hl), (transfer_lookup _ _ _ _ _ u Ht).
    destruct (m !! u); cbn; [f_equal; ring | done].
Qed.

(** The transfers of one bill, summed. *)
Lemma delta_sum payer s (debtors : list string) u :
  foldr (λ d acc, delta payer s d u + acc) 0 debtors
  = if decide (u = payer)
    then s * Qc_of_Z (Z.of_nat (length (filter (λ d, d ≠ payer) debtors)))
    else - (s * Qc_of_Z (Z.of_nat (occurrences u debtors))).
Proof.
  unfold occurrences.
  induction debtors as [|d l IH]; cbn [foldr].
  - rewrite !filter_nil. cbn [length]. rewrite Qc_of_nat_0.
    case_decide; ring.
  - rewrite IH, !filter_cons. unfold delta.
    repeat case_decide; subst; try congruence;
      cbn [length]; rewrite ?Qc_of_nat_S; ring.
Qed.

Lemma bill_step_lookup (m m' : gmap string Qc) (b : Bill.t) u :
  bill_step m b = Ok m' → m' !! u = (λ x, x + net b u) <$> m !! u.
Proof.
  unfold bill_step, net, share, others, occurrences.
  destruct (Bill.debtors b) as [|d0 ds] eqn:Hds.
  - intros [= <-]. rewrite !filter_nil. cbn [length].
    rewrite Qc_of_nat_0.
    destruct (m !! u); cbn; [f_equal; case_decide; ring | done].
  - cbn [truediv length mbind result_bind]. intros Hl.
    rewrite (transfers_lookup _ _ _ _ _ u Hl), delta_sum. done.
Qed.

Lemma ledger_lookup (bills_list : list Bill.t) (m m' : gmap string Qc) u :
  for_each bill_step m bills_list = Ok m' →
  m' !! u = (λ x, x + net_total bills_list u) <$> m !! u.
Proof.
  revert m. induction bills_list as [|b bs IH]; intros m; simpl.
  - intros [= <-]. destruct (m !! u); cbn; [f_equal; ring | done].
  - destruct (bill_step m b) as [m1|e] eqn:Hb; [cbn|done].
    intros Hl. rewrite (IH _ Hl), (bill_step_lookup _ _ _ u Hb).
    destruct (m !! u); cbn; [f_equal; ring | done].
Qed.

Lemma calculate_debts_lookup (users : list string) (bills_list : list Bill.t)
    (balances : gmap string Qc) u :
  calculate_debts users bills_list = Ok balances →
  balances !! u
  = if decide (u ∈ users) then Some (net_total bills_list u) else None.
Proof.
  unfold calculate_debts. intros Hl. rewrite (ledger_lookup _ _ _ u Hl).
  case_decide as Hu.
  - rewrite init_balances_lookup by done. cbn. f_equal. ring.
  - destruct (init_balances_spec users) as [_ Hd].
    assert (init_balances users !! u = None) as ->; [|done].
    apply not_elem_of_dom. rewrite Hd. by rewrite elem_of_list_to_set.
Qed.

Lemma share_nonneg (b : Bill.t) :
  0 ≤ Bill.amount b → Bill.debtors b ≠ [] → 0 ≤ share b.
Proof.
  intros Ha Hne. unfold share, Qcdiv.
  apply Qcmult_nonneg_nonneg; [done|].
  apply Qclt_le_weak, Qcinv_pos.
  rewrite <- Z2Qc_inj_0, <- Z2Qc_inj_lt.
  destruct (Bill.debtors b); [done | cbn; lia].
Qed.

Lemma net_nonpos (b : Bill.t) u :
  0 ≤ Bill.amount b → u ≠ Bill.payer b → net b u ≤ 0.
Proof.
  intros Ha Hu. unfold net. rewrite decide_False by done.
  destruct (decide (Bill.debtors b = [])) as [Hnil|Hne].
  - rewrite Hnil. unfold occurrences. rewrite filter_nil. cbn [length].
    rewrite Qc_of_nat_0, Qcmult_0_r. done.
  - rewrite <- (Qcopp_involutive 0). apply Qcopp_le_compat.
    change (- 0) with 0.
    apply Qcmult_nonneg_nonneg; [by apply share_nonneg|].
    apply Qc_of_nat_nonneg.
Qed.

Lemma occurrences_absent (u : string) (l : list string) :
  u ∉ l → occurrences u l = 0%nat.
Proof.
  unfold occurrences. induction l as [|d l IH]; intros Hu; [done|].
  apply not_elem_of_cons in Hu as [Hne Hu].
  rewrite filter_cons, decide_False by auto. by apply IH.
Qed.

Lemma net_nonneg (b : Bill.t) u :
  0 ≤ Bill.amount b → u = Bill.payer b ∨ u ∉ Bill.debtors b → 0 ≤ net b u.
Proof.
  intros Ha Hu. unfold net. case_decide as Hp.
  - destruct (decide (Bill.debtors b = [])) as [Hnil|Hne].
    + unfold others. rewrite Hnil, filter_nil. cbn [length].
      by rewrite Qc_of_nat_0, Qcmult_0_r.
    + apply Qcmult_nonneg_nonneg; [by apply share_nonneg|].
      apply Qc_of_nat_nonneg.
  - destruct Hu as [Hu|Hu]; [done|].
    rewrite occurrences_absent by done.
    rewrite Qc_of_nat_0, Qcmult_0_r. done.
Qed.

(** X4. With non-negative amounts, a participant who paid none of the bills
    never ends with a positive balance, and a participant who is not listed
    as a debtor on anybody else's bill never ends with a negative one. *)
Theorem balance_sign (users : list string) (bills_list : list Bill.t)
    (balances : gmap string Qc) (u : string) (x : Qc) :
  calculate_debts users bills_list = Ok balances →
  Forall (λ b, 0 ≤ Bill.amount b) bills_list →
  balances !! u = Some x →
  (Forall (λ b, Bill.payer b ≠ u) bills_list → x ≤ 0)
  ∧ (Forall (λ b, Bill.payer b = u ∨ u ∉ Bill.debtors b) bills_list → 0 ≤ x).
Proof.
  intros Hl Hpos Hx.
  rewrite (calculate_debts_lookup _ _ _ u Hl) in Hx.
  case_decide; [|done]. injection Hx as <-. clear Hl.
  split; intros Hall.
  - induction bills_list as [|b bs IH]; cbn [net_total foldr]; [done|].
    apply Forall_cons in Hpos as [Hb Hpos]. apply Forall_cons in Hall as [Hu Hall].
    apply Qcplus_nonpos_nonpos; [apply net_nonpos; auto | by apply IH].
  - induction bills_list as [|b bs IH]; cbn [net_total foldr]; [done|].
    apply Forall_cons in Hpos as [Hb Hpos]. apply Forall_cons in Hall as [Hu Hall].
    apply Qcplus_nonneg_nonneg; [apply net_nonneg; naive_solver | by apply IH].
Qed.

Lemma balance_sign_witness :
  (Forall (λ b, Bill.payer b ≠ "Ferb") [bill_300] → Qc_of_Z (-100) ≤ 0)
  ∧ (Forall (λ b, Bill.payer b = "Ferb" ∨ "Ferb" ∉ Bill.debtors b) [bill_300]
     → 0 ≤ Qc_of_Z (-100)).
Proof.
  apply (balance_sign ROOMIES [bill_300] _ "Ferb" (Qc_of_Z (-100))
           calculate_debts_example).
  - apply (bool_decide_unpack _). by vm_compute.
  - reflexivity.
Defined.

Lemma Qclt_opp (a b : Qc) : a < b ↔ - b < - a.
Proof.
  rewrite (Qcplus_lt_mono_l a b (- a - b)).
  by replace (- a - b + a) with (- b) by ring;
     replace (- a - b + b) with (- a) by ring.
Qed.

Lemma standing_opp (x : Qc) : standing (- x) = opposite (standing x).
Proof.
  assert (1 < - x ↔ x < - 1) as Hlo.
  { rewrite (Qclt_opp x). by rewrite Qcopp_involutive. }
  assert (- x < - 1 ↔ 1 < x) as Hhi by (symmetry; apply Qclt_opp).
  assert (¬ (x < - 1 ∧ 1 < x)) as Hex.
  { intros [H1 H2]. apply (Qclt_not_le _ _ (Qclt_trans _ _ _ H2 H1)).
    by vm_compute. }
  unfold standing.
  destruct (decide (1 < x)) as [H1|H1], (decide (x < - 1)) as [H2|H2];
    cbn [opposite].
  - destruct Hex. done.
  - rewrite decide_False by (rewrite Hlo; done).
    by rewrite decide_True by (rewrite Hhi; done).
  - by rewrite decide_True by (rewrite Hlo; done).
  - rewrite decide_False by (rewrite Hlo; done).
    by rewrite decide_False by (rewrite Hhi; done).
Qed.

Lemma two_party_balances (a b : string) (bills_list : list Bill.t)
    (balances : gmap string Qc) :
  a ≠ b → calculate_debts [a; b] bills_list = Ok balances →
  ∃ x, balances !! a = Some x ∧ balances !! b = Some (- x).
Proof.
  intros Hab Hl. destruct (calculate_debts_Ok_sum _ _ _ Hl) as [Hd Hs].
  assert (a ∈ dom balances) as [x Hx]%elem_of_dom by (rewrite Hd; set_solver).
  assert (b ∈ dom balances) as [y Hy]%elem_of_dom by (rewrite Hd; set_solver).
  assert (balances = <[a := x]> (<[b := y]> ∅)) as Hm.
  { apply map_eq. intros k. rewrite !lookup_insert.
    repeat case_decide; subst; try done.
    rewrite lookup_empty. apply not_elem_of_dom. rewrite Hd. set_solver. }
  exists x. split; [done|]. rewrite Hy. f_equal.
  rewrite Hm in Hs.
  rewrite sum_values_insert_fresh in Hs by (by rewrite lookup_insert_ne).
  rewrite sum_values_insert_fresh, sum_values_empty in Hs
    by apply lookup_empty.
  apply (inj (Qcplus x)). rewrite Qcplus_opp_r, <- Hs. ring.
Qed.

(** X5. In cat mode the ledger has two parties, so their balances are
    opposite and the dashboard shows opposite lines: Ale is shown as owed
    exactly when Fandi is shown as owing, and one is settled exactly when
    the other is. *)
Theorem resumen_cat_mode_opposite (s : Session)
    (lines : list (string * Standing)) :
  resumen true s = Ok lines →
  ∃ st, lines = [("Ale", st); ("Fandi", opposite st)].
Proof.
  unfold resumen. cbn [current_users context_id CATS_PARENTS].
  destruct (calculate_debts _ _) as [m|e] eqn:Hl; [cbn|done].
  destruct (two_party_balances "Ale" "Fandi" _ _ ltac:(done) Hl)
    as (x & Hx & Hy).
  rewrite Hx, Hy. cbn. intros [= <-].
  exists (standing x). by rewrite standing_opp.
Qed.

Lemma resumen_cat_mode_opposite_witness :
  ∃ st, [("Ale", Recupera); ("Fandi", Debe)]
        = [("Ale", st); ("Fandi", opposite st)].
Proof.
  apply (resumen_cat_mode_opposite session_cat). by vm_compute.
Defined.

(** ** The dashboard on documents filled through the forms *)

Lemma context_id_inj (m1 m2 : bool) : context_id m1 = context_id m2 → m1 = m2.
Proof. by destruct m1, m2. Qed.

Lemma bills_by_members_append (d : Data) (b : Bill.t) (is_cat_mode : bool) :
  Bill.context b = context_id is_cat_mode →
  drawn_from (current_users is_cat_mode) b →
  bills_by_members d → bills_by_members (append_bill b d).
Proof.
  unfold bills_by_members. intros Hc Hb Hd. cbn.
  apply Forall_app. split; [done|]. constructor; [|done].
  intros m Hm. rewrite Hc in Hm. by apply context_id_inj in Hm as <-.
Qed.

Lemma session_cat_by_members : bills_by_members (data session_cat).
Proof.
  unfold bills_by_members. cbn. apply Forall_cons. split.
  { intros [] Hc; [discriminate Hc | by_compute]. }
  apply Forall_cons. split; [|by apply Forall_nil].
  intros [] Hc; [by_compute | discriminate Hc].
Defined.

(** X6. When payer and debtors come from the select boxes of the active
    mode, each of the three bill-filing forms (manual entry, checkout,
    furniture confirmation) keeps every bill of the document within the
    group of its own context. *)
Theorem forms_keep_bills_by_members (str : Qc → string) (is_cat_mode : bool)
    (payer : string) (debtors : list string) (s : Session) :
  payer ∈ current_users is_cat_mode →
  debtors ⊆ current_users is_cat_mode →
  bills_by_members (data s) →
  (∀ b_desc b_cat b_amount b_date,
     bills_by_members
       (data (add_bill is_cat_mode b_desc b_cat b_amount payer debtors
                b_date s)))
  ∧ (∀ today,
       bills_by_members (data (checkout str is_cat_mode today payer debtors s)))
  ∧ (∀ today real_price,
       bills_by_members
         (data (furn_checkout is_cat_mode today real_price payer debtors s))).
Proof.
  intros Hp Hd Hs. split; [|split].
  - intros. cbn. by apply (bills_by_members_append _ _ is_cat_mode).
  - intros today. unfold checkout. case_decide; [|done]. cbn.
    by apply (bills_by_members_append (data s) _ is_cat_mode).
  - intros today real_price. unfold furn_checkout.
    destruct (temp_furn_buy s) as [i|]; [|done].
    destruct (furniture (data s) !! i) as [x|]; [|done]. cbn.
    by apply (bills_by_members_append (data s) _ is_cat_mode).
Qed.

Lemma forms_keep_bills_by_members_witness :
  bills_by_members
    (data (add_bill true "arena" "Hogar" (Qc_of_Z 40) "Fandi" ["Ale"; "Fandi"]
             "2024-03-08" session_cat)).
Proof.
  apply (forms_keep_bills_by_members str_integral true "Fandi"
           ["Ale"; "Fandi"] session_cat).
  - apply (bool_decide_unpack _). by vm_compute.
  - apply (bool_decide_unpack _). by vm_compute.
  - apply session_cat_by_members.
Defined.


Lemma current_users_NoDup (is_cat_mode : bool) :
  NoDup (current_users is_cat_mode).
Proof. destruct is_cat_mode; apply (bool_decide_unpack _); by vm_compute. Qed.




(** X8. Filing a bill in one mode never changes the dashboard of the other
    mode: manual entry, checkout and furniture confirmation tag the bill
    with the active context, and the other ledger does not read it. *)
Theorem resumen_other_mode_unchanged (str : Qc → string) (is_cat_mode : bool)
    (payer : string) (debtors : list string) (s : Session) :
  (∀ b_desc b_cat b_amount b_date,
     resumen (negb is_cat_mode)
       (add_bill is_cat_mode b_desc b_cat b_amount payer debtors b_date s)
     = resumen (negb is_cat_mode) s)
  ∧ (∀ today,
       resumen (negb is_cat_mode)
         (checkout str is_cat_mode today payer debtors s)
       = resumen (negb is_cat_mode) s)
  ∧ (∀ today real_price,
       resumen (negb is_cat_mode)
         (furn_checkout is_cat_mode today real_price payer debtors s)
       = resumen (negb is_cat_mode) s).
Proof.
  assert (∀ b, Bill.context b = context_id is_cat_mode →
            get_context_data (context_id (negb is_cat_mode))
              (bills (data s) ++ [b])
            = get_context_data (context_id (negb is_cat_mode))
                (bills (data s))) as Hview.
  { intros b Hb. rewrite get_context_data_app. cbn.
    rewrite decide_False, app_nil_r; [done|].
    unfold get_context, Bill_contextual. rewrite Hb.
    by destruct is_cat_mode. }
  split; [|split].
  - intros. unfold resumen. cbn. by rewrite Hview.
  - intros today. unfold checkout. case_decide; [|done].
    unfold resumen. cbn. by rewrite Hview.
  - intros today real_price. unfold furn_checkout.
    destruct (temp_furn_buy s) as [i|]; [|done].
    destruct (furniture (data s) !! i) as [x|]; [|done].
    unfold resumen. cbn. by rewrite Hview.
Qed.

(** ** Tasks *)

Lemma list_index_Ok `{EqDecision A} (x : A) (l : list A) :
  x ∈ l → ∃ i, list_index x l = Ok i ∧ l !! i = Some x.
Proof.
  induction l as [|y l IH]; intros Hx; [by apply elem_of_nil in Hx|]. cbn.
  destruct (decide (y = x)) as [->|Hne]; [by exists 0%nat|].
  apply elem_of_cons in Hx as [Hx|Hx]; [congruence|].
  destruct (IH Hx) as (i & -> & Hi). by exists (S i).
Qed.

Lemma list_index_Raise `{EqDecision A} (x : A) (l : list A) :
  x ∉ l → list_index x l = Raise ValueError.
Proof.
  induction l as [|y l IH]; intros Hx; [done|]. cbn.
  apply not_elem_of_cons in Hx as [Hne Hx].
  rewrite decide_False by auto. by rewrite IH.
Qed.

Lemma board_loop_known (ctx : string) (i : nat) (new_status : string)
    (j : nat) (ts : list Task.t) :
  statuses_known ctx ts →
  board_loop ctx i new_status j ts
  = Ok (match ts !! (i - j)%nat with
        | Some t =>
            if decide ((j ≤ i)%nat ∧ get_context t = Some ctx)
            then <[(i - j)%nat := task_set_status new_status t]> ts
            else ts
        | None => ts
        end).
Proof.
  unfold statuses_known. revert j.
  induction ts as [|t rest IH]; intros j Hk; [done|].
  apply Forall_cons in Hk as [Ht Hrest]. cbn [board_loop].
  specialize (IH (S j) Hrest).
  destruct (decide (get_context t = Some ctx)) as [Hc|Hc].
  - destruct (list_index_Ok _ _ (Ht Hc)) as (k & -> & _). cbn.
    destruct (decide (j = i ∧ new_status ≠ Task.status t)) as [[-> Hn]|Hn].
    + rewrite Nat.sub_diag. cbn. by rewrite decide_True by done.
    + rewrite IH. cbn. f_equal.
      destruct (decide (j = i)) as [->|Hji].
      * rewrite Nat.sub_diag. cbn.
        replace (i - S i)%nat with 0%nat by lia.
        rewrite decide_True by done.
        assert (new_status = Task.status t) as ->.
        { destruct (decide (new_status = Task.status t)); [done|].
          destruct Hn. done. }
        destruct rest as [|t' rest']; cbn.
        -- by destruct t.
        -- rewrite decide_False by lia. by destruct t.
      * destruct (decide (j < i)%nat) as [Hlt|Hge].
        -- replace (i - j)%nat with (S (i - S j)) by lia. cbn.
           destruct (rest !! (i - S j)%nat) as [t'|]; [|done].
           destruct (decide (get_context t' = Some ctx)).
           ++ rewrite !decide_True by (split; [lia | done]). done.
           ++ rewrite !decide_False by naive_solver. done.
        -- replace (i - j)%nat with 0%nat by lia.
           replace (i - S j)%nat with 0%nat by lia. cbn.
           rewrite decide_False by lia.
           destruct rest as [|t' rest']; cbn; [done|].
           by rewrite decide_False by lia.
  - rewrite IH. cbn. f_equal.
    destruct (decide (j < i)%nat) as [Hlt|Hge].
    + replace (i - j)%nat with (S (i - S j)) by lia. cbn.
      destruct (rest !! (i - S j)%nat) as [t'|]; [|done].
      destruct (decide (get_context t' = Some ctx)).
      * rewrite !decide_True by (split; [lia | done]). done.
      * rewrite !decide_False by naive_solver. done.
    + replace (i - j)%nat with 0%nat by lia.
      replace (i - S j)%nat with 0%nat by lia. cbn.
      rewrite decide_False by naive_solver.
      destruct rest as [|t' rest']; cbn; [done|].
      by rewrite decide_False by lia.
Qed.

Lemma board_loop_unknown (ctx : string) (i : nat) (new_status : string)
    (l1 l2 : list Task.t) (t : Task.t) (j : nat) :
  statuses_known ctx l1 → get_context t = Some ctx →
  Task.status t ∉ STATUS_OPTIONS → (j + length l1 ≤ i)%nat →
  board_loop ctx i new_status j (l1 ++ t :: l2) = Raise ValueError.
Proof.
  unfold statuses_known. revert j.
  induction l1 as [|t1 l1 IH]; intros j Hk Hc Hbad Hle; cbn [app board_loop].
  - rewrite decide_True by done. by rewrite list_index_Raise.
  - apply Forall_cons in Hk as [Ht1 Hk]. cbn in Hle.
    rewrite (IH (S j)) by (done || lia).
    destruct (decide (get_context t1 = Some ctx)) as [Hc1|Hc1]; [|done].
    destruct (list_index_Ok _ _ (Ht1 Hc1)) as (k & -> & _). cbn.
    rewrite decide_False; [done | lia].
Qed.

Lemma task_board_known (is_cat_mode : bool) (i : nat)
    (new_status : string) (s : Session) (t : Task.t) :
  statuses_known (context_id is_cat_mode) (tasks (data s)) →
  tasks (data s) !! i = Some t →
  Task.context t = context_id is_cat_mode →
  task_board is_cat_mode i new_status s
  = Ok {| data :=
            {| tasks := <[i := task_set_status new_status t]> (tasks (data s));
               bills := bills (data s);
               shopping := shopping (data s);
               furniture := furniture (data s) |};
          shopping_cart := shopping_cart s;
          temp_furn_buy := temp_furn_buy s |}.
Proof.
  intros Hk Hi Hc. unfold task_board.
  rewrite board_loop_known by done. rewrite Nat.sub_0_r, Hi.
  rewrite decide_True; [done|]. split; [lia|].
  unfold get_context, Task_contextual. by rewrite Hc.
Qed.

(** X9. On a board whose tasks of the active context all carry one of the
    three statuses of the select box, changing the select box of such a task
    stores the new status on that task alone: afterwards the task at that
    position has the new status and its other seven fields as before, the
    tasks at the other positions and the rest of the session are as they
    were. *)
Theorem task_board_updates (is_cat_mode : bool) (i : nat)
    (new_status : string) (s : Session) (t : Task.t) :
  statuses_known (context_id is_cat_mode) (tasks (data s)) →
  tasks (data s) !! i = Some t →
  Task.context t = context_id is_cat_mode →
  ∃ s',
    task_board is_cat_mode i new_status s = Ok s'
    ∧ tasks (data s') !! i
      = Some {| Task.id := Task.id t; Task.title := Task.title t;
                Task.assignees := Task.assignees t;
                Task.status := new_status;
                Task.importance := Task.importance t;
                Task.created := Task.created t;
                Task.due := Task.due t; Task.context := Task.context t |}
    ∧ (∀ j, j ≠ i → tasks (data s') !! j = tasks (data s) !! j)
    ∧ length (tasks (data s')) = length (tasks (data s))
    ∧ bills (data s') = bills (data s)
    ∧ shopping (data s') = shopping (data s)
    ∧ furniture (data s') = furniture (data s)
    ∧ shopping_cart s' = shopping_cart s
    ∧ temp_furn_buy s' = temp_furn_buy s.
Proof.
  intros Hk Hi Hc. eexists. split; [by apply task_board_known|].
  cbn [data tasks bills shopping furniture shopping_cart temp_furn_buy].
  split; [|split; [|split; [|done]]].
  - apply list_lookup_insert_eq. by eapply lookup_lt_Some.
  - intros j Hj. by apply list_lookup_insert_ne.
  - by rewrite length_insert.
Qed.

Lemma session_tasks_known (ctx : string) :
  statuses_known ctx (tasks (data session_tasks)).
Proof.
  unfold statuses_known. cbn.
  repeat (apply Forall_cons; split; [intros _; by_compute|]).
  by apply Forall_nil.
Defined.

Lemma task_board_updates_witness :
  tasks (data session_tasks) = [task_litter; task_dishes]
  ∧ Task.status task_dishes = "Pendiente"
  ∧ ∃ s',
      task_board false 1 "Completado" session_tasks = Ok s'
      ∧ tasks (data s') !! 1%nat
        = Some {| Task.id := Task.id task_dishes;
                  Task.title := Task.title task_dishes;
                  Task.assignees := Task.assignees task_dishes;
                  Task.status := "Completado";
                  Task.importance := Task.importance task_dishes;
                  Task.created := Task.created task_dishes;
                  Task.due := Task.due task_dishes;
                  Task.context := Task.context task_dishes |}
      ∧ tasks (data s') !! 0%nat = Some task_litter.
Proof.
  split; [reflexivity|]. split; [reflexivity|].
  destruct (task_board_updates false 1 "Completado" session_tasks task_dishes)
    as (s' & Hs' & Hnew & Hother & _).
  - apply session_tasks_known.
  - reflexivity.
  - reflexivity.
  - exists s'. split; [exact Hs'|]. split; [exact Hnew|].
    by rewrite Hother by lia.
Defined.

(** X10. A task of the active context whose stored status is not one of the
    three options makes the board raise [ValueError] (the [.index] lookup of
    the select box), unless a change made on an earlier task ends the run
    first. *)
Theorem task_board_unknown_status (is_cat_mode : bool) (i : nat)
    (new_status : string) (s : Session) (l1 l2 : list Task.t) (t : Task.t) :
  tasks (data s) = l1 ++ t :: l2 →
  statuses_known (context_id is_cat_mode) l1 →
  Task.context t = context_id is_cat_mode →
  Task.status t ∉ STATUS_OPTIONS →
  (length l1 ≤ i)%nat →
  task_board is_cat_mode i new_status s = Raise ValueError.
Proof.
  intros Hts Hk Hc Hbad Hle. unfold task_board. rewrite Hts.
  rewrite board_loop_unknown; [done|done| |done|cbn; lia].
  unfold get_context, Task_contextual. by rewrite Hc.
Qed.

Lemma task_board_unknown_status_witness :
  task_board false 2 "Completado"
    {| data := with_tasks [task_litter; task_odd; task_dishes] empty_data;
       shopping_cart := []; temp_furn_buy := None |}
  = Raise ValueError.
Proof.
  apply (task_board_unknown_status false 2 "Completado" _
           [task_litter] [task_dishes] task_odd).
  - reflexivity.
  - apply Forall_cons. split; [discriminate | by apply Forall_nil].
  - reflexivity.
  - by_compute.
  - cbn. lia.
Defined.

(** X11. The task form and the status select box keep every stored status
    among the three options, for the tasks of both contexts, so a board
    filled through them never meets an unknown status. *)
Theorem task_forms_keep_statuses_known (is_cat_mode : bool) (ctx : string)
    (s : Session) :
  statuses_known ctx (tasks (data s)) →
  (∀ now_id t_title t_assignees t_imp today t_due,
     statuses_known ctx
       (tasks (data (new_task is_cat_mode now_id t_title t_assignees t_imp
                       today t_due s))))
  ∧ (∀ i new_status s',
       new_status ∈ STATUS_OPTIONS →
       task_board is_cat_mode i new_status s = Ok s' →
       statuses_known ctx (tasks (data s'))).
Proof.
  intros Hk. split.
  - intros. unfold statuses_known in *. cbn.
    apply Forall_app. split; [done|]. apply Forall_cons.
    split; [|by apply Forall_nil]. intros _. cbn. by_compute.
  - intros i new_status s' Hnew. unfold task_board.
    assert (∀ j ts ts', statuses_known ctx ts →
              board_loop (context_id is_cat_mode) i new_status j ts = Ok ts' →
              statuses_known ctx ts') as Hloop.
    { unfold statuses_known. intros j ts. revert j.
      induction ts as [|t rest IH]; intros j ts' Hts; cbn [board_loop].
      - by intros [= <-].
      - apply Forall_cons in Hts as [Ht Hrest].
        destruct (decide (get_context t = Some (context_id is_cat_mode))).
        + destruct (list_index _ _) as [k|e1]; [cbn|done].
          destruct (decide (j = i ∧ new_status ≠ Task.status t)).
          * intros [= <-]. apply Forall_cons. split; [|done]. by intros _.
          * destruct (board_loop _ i new_status (S j) rest) as [r|e2] eqn:Hr;
              [cbn|done].
            intros [= <-]. apply Forall_cons. split; [done|]. by eapply IH.
        + destruct (board_loop _ i new_status (S j) rest) as [r|e3] eqn:Hr;
            [cbn|done].
          intros [= <-]. apply Forall_cons. split; [done|]. by eapply IH. }
    destruct (board_loop _ i new_status 0 (tasks (data s))) as [ts|e4] eqn:Hb;
      [cbn|done].
    intros [= <-]. cbn. by eapply Hloop.
Qed.

Lemma task_forms_keep_statuses_known_witness :
  statuses_known "house"
    (tasks (data (new_task false "1709900300.0" "ropa" ["Fandi"] 1
                    "2024-03-09" None session_tasks))).
Proof.
  apply (task_forms_keep_statuses_known false "house" session_tasks).
  apply session_tasks_known.
Defined.

Lemma pending_app (me ctx : string) (l1 l2 : list Task.t) :
  pending me ctx (l1 ++ l2) = pending me ctx l1 ++ pending me ctx l2.
Proof. unfold pending, my_tasks. by rewrite get_context_data_app, filter_app. Qed.

(** X12. Setting a task of the active context to Completado takes it off
    the pending list of every person and changes nobody's list otherwise:
    the lists of the active context lose that task and nothing else, and
    the lists of the other context are unchanged. *)
Theorem completed_task_leaves_pending (is_cat_mode : bool) (s : Session)
    (l1 l2 : list Task.t) (t : Task.t) :
  tasks (data s) = l1 ++ t :: l2 →
  statuses_known (context_id is_cat_mode) (tasks (data s)) →
  Task.context t = context_id is_cat_mode →
  ∃ s', task_board is_cat_mode (length l1) "Completado" s = Ok s'
    ∧ (∀ me, pending me (context_id is_cat_mode) (tasks (data s'))
             = pending me (context_id is_cat_mode) l1
               ++ pending me (context_id is_cat_mode) l2)
    ∧ (∀ me, pending me (context_id (negb is_cat_mode)) (tasks (data s'))
             = pending me (context_id (negb is_cat_mode)) (tasks (data s))).
Proof.
  intros Hts Hk Hc.
  assert (tasks (data s) !! length l1 = Some t) as Hi.
  { rewrite Hts. by rewrite list_lookup_middle. }
  rewrite (task_board_known is_cat_mode _ "Completado" s t Hk Hi Hc).
  eexists. split; [done|]. cbn [data tasks]. rewrite Hts.
  rewrite insert_app_r_alt, Nat.sub_diag by lia. cbn [insert list_insert].
  assert (∀ ctx, get_context (task_set_status "Completado" t) = Some ctx
                 ↔ context_id is_cat_mode = ctx) as Hctx.
  { intros ctx. unfold get_context, Task_contextual. cbn. rewrite Hc.
    naive_solver. }
  assert (∀ ctx, get_context t = Some ctx
                 ↔ context_id is_cat_mode = ctx) as Hctx0.
  { intros ctx. unfold get_context, Task_contextual. rewrite Hc.
    naive_solver. }
  split; intros me.
  - rewrite pending_app. f_equal.
    change (task_set_status "Completado" t :: l2)
      with ([task_set_status "Completado" t] ++ l2).
    rewrite pending_app. unfold pending at 1, my_tasks at 1.
    cbn [get_context_data]. rewrite decide_True by (by apply Hctx).
    rewrite filter_cons, decide_False by (cbn; naive_solver). done.
  - rewrite !pending_app. f_equal.
    change (task_set_status "Completado" t :: l2)
      with ([task_set_status "Completado" t] ++ l2).
    change (t :: l2) with ([t] ++ l2).
    rewrite !pending_app. f_equal. unfold pending. cbn [get_context_data].
    rewrite !decide_False; [done| |].
    + rewrite Hctx0. by destruct is_cat_mode.
    + rewrite Hctx. by destruct is_cat_mode.
Qed.

Lemma completed_task_leaves_pending_witness :
  ∃ s', task_board false (length [task_litter]) "Completado" session_tasks
        = Ok s'
    ∧ (∀ me, pending me (context_id false) (tasks (data s'))
             = pending me (context_id false) [task_litter]
               ++ pending me (context_id false) [])
    ∧ (∀ me, pending me (context_id (negb false)) (tasks (data s'))
             = pending me (context_id (negb false))
                 (tasks (data session_tasks))).
Proof.
  apply (completed_task_leaves_pending false session_tasks
           [task_litter] [] task_dishes).
  - reflexivity.
  - apply session_tasks_known.
  - reflexivity.
Defined.

(** ** Shopping list *)

Lemma key_set_status (st : string) (it : ShoppingItem.t) :
  (ShoppingItem.name (ShoppingItem.set_status st it),
   ShoppingItem.context (ShoppingItem.set_status st it))
  = (ShoppingItem.name it, ShoppingItem.context it).
Proof. reflexivity. Qed.

Lemma names_unique_insert_status (sh : list ShoppingItem.t) i it st :
  sh !! i = Some it → names_unique sh →
  names_unique (<[i := ShoppingItem.set_status st it]> sh).
Proof.
  unfold names_unique. intros Hi Hu.
  rewrite list_fmap_insert, key_set_status.
  rewrite list_insert_id; [done|]. by rewrite list_lookup_fmap, Hi.
Qed.

Lemma names_unique_restock (ctx : string) (items : list string)
    (sh : list ShoppingItem.t) :
  names_unique sh → names_unique (map (restock ctx items) sh).
Proof.
  unfold names_unique. intros Hu.
  assert (∀ l : list ShoppingItem.t,
            map (λ i, (ShoppingItem.name i, ShoppingItem.context i))
              (map (restock ctx items) l)
            = map (λ i, (ShoppingItem.name i, ShoppingItem.context i)) l)
    as ->; [|done].
  intros l. rewrite map_map. apply map_ext. intros it.
  unfold restock. by case_decide.
Qed.

Lemma names_unique_delete (sh : list ShoppingItem.t) j :
  names_unique sh → names_unique (delete j sh).
Proof.
  unfold names_unique. intros Hu.
  eapply sublist_NoDup; [exact Hu|].
  apply fmap_sublist, sublist_delete.
Qed.

Lemma shopping_mark_names_unique (is_cat_mode : bool) (st st' : string)
    (i : nat) (s : Session) :
  names_unique (shopping (data s)) →
  names_unique (shopping (data (shopping_mark is_cat_mode st st' i s))).
Proof.
  intros Hu. unfold shopping_mark.
  destruct (shopping (data s) !! i) as [it|] eqn:Hi; [|done].
  case_decide; [|done]. cbn. by apply names_unique_insert_status.
Qed.

(** X13. Names stay unique per context through every operation on the
    shopping list: adding an item, the two status buttons, removing an item
    and the checkout. *)
Theorem shopping_keeps_names_unique (str : Qc → string) (is_cat_mode : bool)
    (s : Session) :
  names_unique (shopping (data s)) →
  (∀ new_item,
     names_unique (shopping (data (shopping_add is_cat_mode new_item s))))
  ∧ (∀ i, names_unique (shopping (data (shopping_have is_cat_mode i s))))
  ∧ (∀ i, names_unique (shopping (data (shopping_buy is_cat_mode i s))))
  ∧ (∀ item s', shopping_remove item s = Ok s' →
                names_unique (shopping (data s')))
  ∧ (∀ today c_payer c_debtors,
       names_unique
         (shopping (data (checkout str is_cat_mode today c_payer c_debtors
                            s)))).
Proof.
  intros Hu. repeat split.
  - intros. by apply shopping_add_names_unique.
  - intros. by apply shopping_mark_names_unique.
  - intros. by apply shopping_mark_names_unique.
  - intros item s'. unfold shopping_remove.
    destruct (list_remove item (shopping (data s))) as [sh|e] eqn:Hrm;
      [cbn|done].
    intros [= <-]. cbn.
    destruct (decide (item ∈ shopping (data s))) as [Hin|Hout].
    + apply list_elem_of_lookup in Hin as [i Hi].
      destruct (list_remove_spec item _ i Hi) as (j & _ & _ & _ & Hrm').
      rewrite Hrm' in Hrm. injection Hrm as <-.
      by apply names_unique_delete.
    + by rewrite list_remove_absent in Hrm.
  - intros today c_payer c_debtors.
    destruct (decide (0 < cart_total (shopping_cart s))).
    + rewrite checkout_positive by done. cbn. by apply names_unique_restock.
    + by rewrite checkout_not_positive.
Qed.

Lemma sample_shopping_names_unique : names_unique sample_shopping.
Proof. unfold names_unique. by_compute. Defined.

Lemma shopping_keeps_names_unique_witness :
  names_unique (shopping (data (shopping_have false 1 session_shopping))).
Proof.
  apply (shopping_keeps_names_unique str_integral false session_shopping).
  apply sample_shopping_names_unique.
Defined.

Lemma name_taken_true (new_item : string) (l : list ShoppingItem.t) :
  name_taken new_item l = true ↔ ∃ i, i ∈ l ∧ ShoppingItem.name i = new_item.
Proof.
  unfold name_taken. rewrite existsb_exists.
  setoid_rewrite <- list_elem_of_In. setoid_rewrite bool_decide_eq_true.
  done.
Qed.

(** X14. Adding a shopping item appends one item to buy, tagged with the
    active context, exactly when the name is not empty and no item of the
    active context already has it; otherwise nothing changes. An item of
    the other context with the same name does not stand in the way. *)
Theorem shopping_add_effect (is_cat_mode : bool) (new_item : string)
    (s : Session) :
  let ctx := context_id is_cat_mode in
  let taken :=
    ∃ it, it ∈ shopping (data s) ∧ ShoppingItem.context it = ctx
          ∧ ShoppingItem.name it = new_item in
  (new_item ≠ "" → ¬ taken →
   shopping_add is_cat_mode new_item s
   = {| data :=
          with_shopping
            (shopping (data s) ++
               [{| ShoppingItem.name := new_item;
                   ShoppingItem.status := "buy";
                   ShoppingItem.context := ctx |}])
            (data s);
        shopping_cart := shopping_cart s;
        temp_furn_buy := temp_furn_buy s |})
  ∧ (new_item = "" ∨ taken → shopping_add is_cat_mode new_item s = s).
Proof.
  cbv zeta. unfold shopping_add.
  assert (name_taken new_item
            (get_context_data (context_id is_cat_mode) (shopping (data s)))
          = true
          ↔ ∃ it, it ∈ shopping (data s)
                  ∧ ShoppingItem.context it = context_id is_cat_mode
                  ∧ ShoppingItem.name it = new_item) as Htaken.
  { rewrite name_taken_true. setoid_rewrite elem_of_get_context_data.
    unfold tagged, get_context, ShoppingItem_contextual.
    split.
    - intros (it & [Hin Htag] & Hn). exists it.
      split; [done|]. split; [congruence | done].
    - intros (it & Hin & Hc & Hn). exists it.
      split; [|done]. split; [done | by rewrite Hc]. }
  split.
  - intros Hne Hfree. rewrite bool_decide_eq_false_2 by done.
    destruct (name_taken _ _); [|done]. destruct Hfree. by apply Htaken.
  - intros [->|Ht]; [done|]. case_bool_decide; [done|].
    apply Htaken in Ht. by rewrite Ht.
Qed.

Lemma shopping_add_effect_witness :
  shopping_add true "bread" session_shopping = session_shopping.
Proof.
  apply (shopping_add_effect true "bread" session_shopping).
  right. exists bread_cat. split; [|done]. by_compute.
Defined.

(** X15. "Ya tenemos" followed by "Se acabó" on the same item brings the
    session back to what it was. *)
Theorem shopping_have_buy_round_trip (is_cat_mode : bool) (i : nat)
    (s : Session) (item : ShoppingItem.t) :
  shopping (data s) !! i = Some item →
  drawn is_cat_mode "buy" item →
  shopping_buy is_cat_mode i (shopping_have is_cat_mode i s) = s.
Proof.
  destruct s as [[ts bs sh fu] cart pend]. cbn.
  intros Hi [Hc Hst]. unfold shopping_buy, shopping_have, shopping_mark.
  cbn. rewrite Hi. rewrite decide_True by done. cbn.
  rewrite list_lookup_insert_eq by (by eapply lookup_lt_Some).
  rewrite decide_True by done. cbn.
  rewrite list_insert_insert_eq.
  assert (ShoppingItem.set_status "buy" (ShoppingItem.set_status "have" item)
          = item) as ->.
  { destruct item. cbn in *. by subst. }
  by rewrite list_insert_id by done.
Qed.

Lemma shopping_have_buy_round_trip_witness :
  shopping_buy false 1 (shopping_have false 1 session_shopping)
  = session_shopping.
Proof.
  apply (shopping_have_buy_round_trip false 1 session_shopping milk_house).
  - reflexivity.
  - split; reflexivity.
Defined.

(** ** The cart *)

Lemma foldl_Qcplus (a : Qc) (l : list Qc) :
  foldl Qcplus a l = a + foldl Qcplus 0 l.
Proof.
  revert a. induction l as [|x l IH]; intros a; cbn; [ring|].
  rewrite (IH (a + x)), (IH (0 + x)). ring.
Qed.

Lemma cart_total_cons (k : string) (v : Qc) (cart : list (string * Qc)) :
  cart_total ((k, v) :: cart) = v + cart_total cart.
Proof. unfold cart_total. cbn. rewrite foldl_Qcplus. ring. Qed.

Lemma dict_get_set (k k' : string) (v : Qc) (cart : list (string * Qc)) :
  dict_get k' (dict_set k v cart)
  = if decide (k' = k) then Some v else dict_get k' cart.
Proof.
  induction cart as [|[k0 v0] cart IH]; cbn.
  - destruct (decide (k = k')), (decide (k' = k)); congruence.
  - destruct (decide (k0 = k)) as [->|Hk0]; cbn.
    + destruct (decide (k = k')), (decide (k' = k)); congruence.
    + rewrite IH.
      destruct (decide (k0 = k')), (decide (k' = k)); congruence.
Qed.

Lemma dict_get_None (k : string) (cart : list (string * Qc)) :
  dict_get k cart = None ↔ k ∉ cart.*1.
Proof.
  induction cart as [|[k0 v0] cart IH]; cbn.
  - split; [intros _; apply not_elem_of_nil | done].
  - rewrite not_elem_of_cons. destruct (decide (k0 = k)); naive_solver.
Qed.

Lemma dict_set_keys (k : string) (v : Qc) (cart : list (string * Qc)) :
  (dict_set k v cart).*1
  = if dict_get k cart is None then cart.*1 ++ [k] else cart.*1.
Proof.
  induction cart as [|[k0 v0] cart IH]; cbn; [done|].
  destruct (decide (k0 = k)) as [->|Hk0]; cbn; [done|].
  rewrite IH. by destruct (dict_get k cart).
Qed.

Lemma dict_set_keys_distinct (k : string) (v : Qc)
    (cart : list (string * Qc)) :
  cart_keys_distinct cart → cart_keys_distinct (dict_set k v cart).
Proof.
  unfold cart_keys_distinct. intros Hnd. rewrite dict_set_keys.
  destruct (dict_get k cart) eqn:Hk; [done|].
  apply NoDup_app. split; [done|]. split; [|apply NoDup_singleton].
  intros k' Hin Hk'. apply list_elem_of_singleton in Hk' as ->.
  by apply dict_get_None in Hk.
Qed.

Lemma dict_set_total (k : string) (v : Qc) (cart : list (string * Qc)) :
  cart_total (dict_set k v cart)
  = cart_total cart - default 0 (dict_get k cart) + v.
Proof.
  induction cart as [|[k0 v0] cart IH]; cbn [dict_set dict_get fst snd].
  - unfold cart_total. cbn. ring.
  - destruct (decide (k0 = k)) as [->|Hk0].
    + rewrite !cart_total_cons. cbn. ring.
    + rewrite !cart_total_cons, IH. ring.
Qed.

Lemma dict_del_present (k : string) (cart : list (string * Qc)) :
  dict_get k cart ≠ None →
  ∃ cart', dict_del k cart = Ok cart' ∧ cart'.*1 `sublist_of` cart.*1.
Proof.
  induction cart as [|[k0 v0] cart IH]; cbn; [done|].
  destruct (decide (k0 = k)) as [->|Hk0].
  - intros _. exists cart. split; [done|]. by constructor.
  - intros Hk. destruct (IH Hk) as (cart' & -> & Hsub). cbn.
    eexists. split; [done|]. cbn. by constructor.
Qed.

Lemma dict_del_set_fresh (k : string) (v : Qc) (cart : list (string * Qc)) :
  dict_get k cart = None → dict_del k (dict_set k v cart) = Ok cart.
Proof.
  induction cart as [|[k0 v0] cart IH]; cbn.
  - intros _. by rewrite decide_True.
  - destruct (decide (k0 = k)) as [->|Hk0]; [done|]. intros Hk. cbn.
    rewrite decide_False by done. by rewrite IH.
Qed.

(** X16. The cart keeps the keys of a dict distinct through its three
    buttons ("Al carro", the price box, "Sacar"), and "Sacar" never raises:
    it is drawn only for an item that is in the cart. *)
Theorem cart_buttons_keep_keys_distinct (is_cat_mode : bool) (i : nat)
    (s : Session) :
  cart_keys_distinct (shopping_cart s) →
  cart_keys_distinct (shopping_cart (cart_add is_cat_mode i s))
  ∧ (∀ price,
       cart_keys_distinct (shopping_cart (cart_price is_cat_mode i price s)))
  ∧ (∃ s', cart_out is_cat_mode i s = Ok s'
           ∧ cart_keys_distinct (shopping_cart s')).
Proof.
  intros Hnd. unfold cart_add, cart_price, cart_out.
  destruct (shopping (data s) !! i) as [item|]; [|by eauto].
  split; [|split].
  - case_decide; [|done]. cbn. by apply dict_set_keys_distinct.
  - intros price. case_decide; [|done]. cbn. by apply dict_set_keys_distinct.
  - case_decide as Hin; [|by eauto]. destruct Hin as [_ Hin].
    destruct (dict_del_present _ _ Hin) as (cart' & -> & Hsub). cbn.
    eexists. split; [done|]. cbn. unfold cart_keys_distinct in *.
    by eapply sublist_NoDup.
Qed.

Lemma cart_buttons_keep_keys_distinct_witness :
  cart_keys_distinct (shopping_cart (cart_add false 2 session_milk_only)).
Proof.
  apply (cart_buttons_keep_keys_distinct false 2 session_milk_only).
  unfold cart_keys_distinct. by_compute.
Defined.

(** X17. The price box stores the entered price for that item and for no
    other, keeps the order of the cart, and moves the cart total by the
    difference between the new price and the old one. *)
Theorem cart_price_effect (is_cat_mode : bool) (i : nat) (price old : Qc)
    (s : Session) (item : ShoppingItem.t) :
  shopping (data s) !! i = Some item →
  drawn is_cat_mode "buy" item →
  dict_get (ShoppingItem.name item) (shopping_cart s) = Some old →
  let cart' := shopping_cart (cart_price is_cat_mode i price s) in
  dict_get (ShoppingItem.name item) cart' = Some price
  ∧ (∀ k, k ≠ ShoppingItem.name item →
          dict_get k cart' = dict_get k (shopping_cart s))
  ∧ cart_items cart' = cart_items (shopping_cart s)
  ∧ cart_total cart' = cart_total (shopping_cart s) - old + price
  ∧ data (cart_price is_cat_mode i price s) = data s.
Proof.
  intros Hi Hd Hold. cbv zeta. unfold cart_price. rewrite Hi.
  rewrite decide_True by (split; [done | by rewrite Hold]).
  cbn [with_cart shopping_cart data].
  split; [|split; [|split; [|split]]].
  - rewrite dict_get_set. by rewrite decide_True.
  - intros k Hk. rewrite dict_get_set. by rewrite decide_False.
  - unfold cart_items. by rewrite dict_set_keys, Hold.
  - by rewrite dict_set_total, Hold.
  - done.
Qed.

Lemma cart_price_effect_witness :
  cart_total (shopping_cart (cart_price false 1 (Qc_of_Z 120)
                               session_milk_only))
  = cart_total (shopping_cart session_milk_only) - Qc_of_Z 100 + Qc_of_Z 120.
Proof.
  apply (cart_price_effect false 1 (Qc_of_Z 120) (Qc_of_Z 100)
           session_milk_only milk_house).
  - reflexivity.
  - split; reflexivity.
  - reflexivity.
Defined.

(** X18. "Al carro" puts the item last in the cart at price 0 and leaves
    the total as it was, so a cart whose items have not been priced cannot
    be checked out; "Sacar" right after "Al carro" restores the session. *)
Theorem cart_add_effect (str : Qc → string) (is_cat_mode : bool) (i : nat)
    (s : Session) (item : ShoppingItem.t) :
  shopping (data s) !! i = Some item →
  drawn is_cat_mode "buy" item →
  dict_get (ShoppingItem.name item) (shopping_cart s) = None →
  let s' := cart_add is_cat_mode i s in
  shopping_cart s' = shopping_cart s ++ [(ShoppingItem.name item, 0)]
  ∧ cart_total (shopping_cart s') = cart_total (shopping_cart s)
  ∧ (cart_total (shopping_cart s) = 0 →
     ∀ mode today c_payer c_debtors,
       checkout str mode today c_payer c_debtors s' = s')
  ∧ cart_out is_cat_mode i s' = Ok s.
Proof.
  intros Hi Hd Hfree. cbv zeta. unfold cart_add. rewrite Hi.
  rewrite decide_True by done.
  assert (dict_set (ShoppingItem.name item) 0 (shopping_cart s)
          = shopping_cart s ++ [(ShoppingItem.name item, 0)]) as Hset.
  { revert Hfree. generalize (ShoppingItem.name item). intros k.
    induction (shopping_cart s) as [|[k0 v0] cart IH]; cbn; [done|].
    destruct (decide (k0 = k)); [done|]. intros Hk. by rewrite IH. }
  assert (cart_total
            (dict_set (ShoppingItem.name item) 0 (shopping_cart s))
          = cart_total (shopping_cart s)) as Htotal.
  { rewrite dict_set_total, Hfree. cbn. ring. }
  split; [done|]. split; [done|]. split.
  - intros Hz mode today c_payer c_debtors.
    apply checkout_not_positive. cbn [with_cart shopping_cart].
    rewrite Htotal, Hz. apply Qcle_not_lt, Qcle_refl.
  - unfold cart_out. cbn [with_cart shopping_cart data]. rewrite Hi.
    rewrite decide_True
      by (split; [done | by rewrite dict_get_set, decide_True]).
    rewrite dict_del_set_fresh by done. cbn. by destruct s.
Qed.

Lemma cart_add_effect_witness :
  cart_out false 2 (cart_add false 2 session_milk_only)
  = Ok session_milk_only.
Proof.
  apply (cart_add_effect str_integral false 2 session_milk_only bread_house).
  - reflexivity.
  - split; reflexivity.
  - reflexivity.
Defined.

(** ** Checkout, once more *)

(** X19. Submitting the checkout form twice files one bill: after a
    checkout, another submission, whatever its payer, debtors, date and
    mode, changes nothing. *)
Theorem checkout_twice (str : Qc → string) (mode1 mode2 : bool)
    (today1 today2 payer1 payer2 : string) (debtors1 debtors2 : list string)
    (s : Session) :
  checkout str mode2 today2 payer2 debtors2
    (checkout str mode1 today1 payer1 debtors1 s)
  = checkout str mode1 today1 payer1 debtors1 s.
Proof.
  destruct (decide (0 < cart_total (shopping_cart s))) as [Hpos|Hno].
  - rewrite (checkout_positive _ mode1) by done.
    apply checkout_not_positive. cbn. apply Qcle_not_lt, Qcle_refl.
  - rewrite (checkout_not_positive _ mode1) by done.
    by apply checkout_not_positive.
Qed.

(** ** Furniture, once more *)

Lemma imap_mark_unique (l1 l2 : list FurnitureItem.t) (x : FurnitureItem.t) :
  x ∉ l1 →
  imap (λ j y, if decide ((j ≤ length l1)%nat ∧ y = x)
               then FurnitureItem.set_status "bought" y else y)
    (l1 ++ x :: l2)
  = l1 ++ FurnitureItem.set_status "bought" x :: l2.
Proof.
  intros Hx. apply list_eq. intros j. rewrite list_lookup_imap.
  destruct (decide (j < length l1)%nat) as [Hlt|Hge].
  - rewrite !lookup_app_l by done.
    destruct (l1 !! j) as [y|] eqn:Hy; [cbn|done].
    rewrite decide_False; [done|]. intros [_ ->].
    apply Hx. by eapply list_elem_of_lookup_2.
  - rewrite !lookup_app_r by lia.
    destruct (j - length l1)%nat as [|k] eqn:Hk; cbn.
    + rewrite decide_True; [done|]. split; [lia | done].
    + destruct (l2 !! k); [cbn|done]. rewrite decide_False; [done|]. lia.
Qed.

(** X21. When no entry listed before the pending wish equals it, the
    confirmation marks that entry alone: the furniture list is the old one
    with the pending entry set to bought, the wish leaves the list of
    wishes and joins the list of bought items, and one bill of the entered
    price is filed. *)
Theorem furn_checkout_unique_wish (is_cat_mode : bool) (today : string)
    (real_price : Qc) (p_payer : string) (p_debtors : list string)
    (s : Session) (l1 l2 : list FurnitureItem.t) (x : FurnitureItem.t) :
  furniture (data s) = l1 ++ x :: l2 →
  temp_furn_buy s = Some (length l1) →
  x ∉ l1 →
  FurnitureItem.status x = "wish" →
  let s' := furn_checkout is_cat_mode today real_price p_payer p_debtors s in
  furniture (data s') = l1 ++ FurnitureItem.set_status "bought" x :: l2
  ∧ wishes (furniture (data s')) = wishes l1 ++ wishes l2
  ∧ bought (furniture (data s'))
    = bought l1 ++ FurnitureItem.set_status "bought" x :: bought l2
  ∧ bills (data s')
    = bills (data s) ++
        [furniture_bill is_cat_mode today real_price p_payer p_debtors x]
  ∧ temp_furn_buy s' = None.
Proof.
  intros Hf Ht Hx Hw. cbv zeta.
  assert (furniture (data s) !! length l1 = Some x) as Hi
    by (by rewrite Hf, list_lookup_middle).
  rewrite (furn_checkout_pending _ _ _ _ _ _ (length l1) x) by done.
  cbn [data furniture bills temp_furn_buy].
  rewrite (mark_bought_spec _ _ x) by done. rewrite Hf, imap_mark_unique by done.
  split; [done|]. split; [|split; [|done]].
  - unfold wishes. rewrite filter_app, filter_cons.
    by rewrite decide_False by done.
  - unfold bought. rewrite filter_app, filter_cons.
    by rewrite decide_True by done.
Qed.

Lemma furn_checkout_unique_wish_witness :
  furniture
    (data (furn_checkout false "2024-03-10" (Qc_of_Z 4500) "Ale" ROOMIES
             session_lamp_sofa))
  = [lamp] ++ FurnitureItem.set_status "bought" sofa :: [].
Proof.
  apply (furn_checkout_unique_wish false "2024-03-10" (Qc_of_Z 4500) "Ale"
           ROOMIES session_lamp_sofa [lamp] [] sofa).
  - reflexivity.
  - reflexivity.
  - by_compute.
  - reflexivity.
Defined.

(** X22. Submitting the furniture confirmation twice files one bill: the
    first submission clears the pending purchase, so a second one, whatever
    it carries, changes nothing. *)
Theorem furn_checkout_twice (mode1 mode2 : bool) (today1 today2 : string)
    (price1 price2 : Qc) (payer1 payer2 : string)
    (debtors1 debtors2 : list string) (s : Session) :
  furn_checkout mode2 today2 price2 payer2 debtors2
    (furn_checkout mode1 today1 price1 payer1 debtors1 s)
  = furn_checkout mode1 today1 price1 payer1 debtors1 s.
Proof.
  assert (∀ m t p py d, temp_furn_buy s = None ∨
            (∃ i, temp_furn_buy s = Some i ∧ furniture (data s) !! i = None) →
            furn_checkout m t p py d s = s) as Hnoop.
  { intros m t p py d [Hn|(i & Ht & Hi)]; unfold furn_checkout.
    - by rewrite Hn.
    - by rewrite Ht, Hi. }
  destruct (temp_furn_buy s) as [i|] eqn:Ht.
  - destruct (furniture (data s) !! i) as [x|] eqn:Hi.
    + rewrite (furn_checkout_pending mode1 today1 price1 payer1 debtors1 s i x)
        by done.
      reflexivity.
    + rewrite !Hnoop; [done| |]; right; by exists i.
  - rewrite !Hnoop; [done| |]; by left.
Qed.

Lemma pending_valid_same (s s' : Session) :
  furniture (data s') = furniture (data s) →
  temp_furn_buy s' = temp_furn_buy s →
  pending_valid s → pending_valid s'.
Proof. unfold pending_valid. intros -> ->. done. Qed.

(** X23. The pending furniture purchase always designates an entry of the
    furniture list: every operation of the application keeps it so (the
    list only grows, and "Comprar" selects an entry that is there), and
    with a purchase pending the confirmation always files its bill. *)
Theorem pending_stays_valid (str : Qc → string) (is_cat_mode : bool)
    (s : Session) :
  pending_valid s →
  (∀ f_name f_est f_date,
     pending_valid (add_furn is_cat_mode f_name f_est f_date s))
  ∧ (∀ i, pending_valid (furn_buy is_cat_mode i s))
  ∧ (∀ today real_price p_payer p_debtors,
       pending_valid
         (furn_checkout is_cat_mode today real_price p_payer p_debtors s)
       ∧ (is_Some (temp_furn_buy s) →
          length (bills (data (furn_checkout is_cat_mode today real_price
                                 p_payer p_debtors s)))
          = S (length (bills (data s)))))
  ∧ (∀ b_desc b_cat b_amount b_payer b_debtors b_date,
       pending_valid
         (add_bill is_cat_mode b_desc b_cat b_amount b_payer b_debtors
            b_date s))
  ∧ (∀ today c_payer c_debtors,
       pending_valid (checkout str is_cat_mode today c_payer c_debtors s))
  ∧ (∀ new_item, pending_valid (shopping_add is_cat_mode new_item s))
  ∧ (∀ i, pending_valid (shopping_have is_cat_mode i s))
  ∧ (∀ i, pending_valid (shopping_buy is_cat_mode i s))
  ∧ (∀ item s', shopping_remove item s = Ok s' → pending_valid s')
  ∧ (∀ i, pending_valid (cart_add is_cat_mode i s))
  ∧ (∀ i price, pending_valid (cart_price is_cat_mode i price s))
  ∧ (∀ i s', cart_out is_cat_mode i s = Ok s' → pending_valid s')
  ∧ (∀ now_id t_title t_assignees t_imp today t_due,
       pending_valid
         (new_task is_cat_mode now_id t_title t_assignees t_imp today t_due s))
  ∧ (∀ i new_status s',
       task_board is_cat_mode i new_status s = Ok s' → pending_valid s').
Proof.
  intros Hv.
  assert (∀ st st' i, pending_valid (shopping_mark is_cat_mode st st' i s))
    as Hmark.
  { intros st st' i. unfold shopping_mark.
    destruct (shopping (data s) !! i); [|done]. case_decide; [|done].
    by apply (pending_valid_same s). }
  repeat split.
  - intros f_name f_est f_date i Hi. cbn in *.
    destruct (Hv i Hi) as [y Hy]. exists y. by apply lookup_app_l_Some.
  - intros i. unfold furn_buy.
    destruct (furniture (data s) !! i) as [x|] eqn:Hi; [|done].
    case_decide; [|done]. intros j [= <-]. cbn. by rewrite Hi.
  - unfold furn_checkout.
    destruct (temp_furn_buy s) as [i|]; [|done].
    destruct (furniture (data s) !! i) as [x|]; [|done]. by intros j [=].
  - intros [i Hi]. destruct (Hv i Hi) as [x Hx].
    rewrite (furn_checkout_pending _ _ _ _ _ _ i x) by done. cbn.
    rewrite length_app. cbn. lia.
  - intros. by apply (pending_valid_same s).
  - intros. unfold checkout. case_decide; [|done].
    by apply (pending_valid_same s).
  - intros. unfold shopping_add. case_bool_decide; [done|].
    destruct (name_taken _ _); [done|]. by apply (pending_valid_same s).
  - intros. apply Hmark.
  - intros. apply Hmark.
  - intros item s'. unfold shopping_remove.
    destruct (list_remove item (shopping (data s))); [cbn|done].
    intros [= <-]. by apply (pending_valid_same s).
  - intros i. unfold cart_add. destruct (shopping (data s) !! i); [|done].
    case_decide; [|done]. by apply (pending_valid_same s).
  - intros i price. unfold cart_price.
    destruct (shopping (data s) !! i); [|done].
    case_decide; [|done]. by apply (pending_valid_same s).
  - intros i s'. unfold cart_out. destruct (shopping (data s) !! i).
    + case_decide; [|by intros [= <-]].
      destruct (dict_del _ _); [cbn|done]. intros [= <-].
      by apply (pending_valid_same s).
    + by intros [= <-].
  - intros. by apply (pending_valid_same s).
  - intros i new_status s'. unfold task_board.
    destruct (board_loop _ _ _ _ _); [cbn|done]. intros [= <-].
    by apply (pending_valid_same s).
Qed.

Lemma pending_stays_valid_witness :
  pending_valid (add_furn false "mesa" (Qc_of_Z 900) "Sin fecha"
                   session_lamp_sofa).
Proof.
  apply (pending_stays_valid str_integral false session_lamp_sofa).
  intros i [= <-]. by eexists.
Defined.

(** ** Edge cases of the ledger and of the dashboard *)

Lemma transfer_zero payer (m : gmap string Qc) d :
  known_party (dom m) payer d → transfer payer 0 m d = Ok m.
Proof.
  unfold transfer. intros Hk. case_decide as Hd; [|done].
  destruct Hk as [?|[Hin Hp]]; [done|].
  apply elem_of_dom in Hin as [x Hx]. apply elem_of_dom in Hp as [y Hy].
  unfold isub, iadd, getitem. rewrite Hx. cbn.
  replace (x - 0) with x by ring. rewrite (insert_id m d x Hx), Hy. cbn.
  replace (y + 0) with y by ring. by rewrite insert_id.
Qed.

Lemma bill_step_zero (m : gmap string Qc) (b : Bill.t) :
  Bill.amount b = 0 → bill_known (dom m) b → bill_step m b = Ok m.
Proof.
  unfold bill_step, bill_known. intros Hz Hk.
  destruct (Bill.debtors b) as [|d0 ds] eqn:Hds; [done|].
  cbn [truediv length mbind result_bind]. rewrite Hz.
  assert (0 / Qc_of_Z (Z.of_nat (S (length ds))) = 0) as ->
    by (unfold Qcdiv; ring).
  clear Hds. induction Hk as [|d l Hd _ IH]; cbn; [done|].
  by rewrite transfer_zero.
Qed.

(** X24. A bill of amount 0 among participants, which the manual form
    accepts, changes no balance: the ledger with it, at any position, is the
    ledger without it. *)
Theorem zero_amount_bill_no_effect (users : list string)
    (l1 l2 : list Bill.t) (b : Bill.t) :
  Bill.amount b = 0 → drawn_from users b →
  calculate_debts users (l1 ++ b :: l2) = calculate_debts users (l1 ++ l2).
Proof.
  intros Hz Hb. unfold calculate_debts. rewrite !for_each_app.
  pose proof (ledger_spec l1 (init_balances users)) as Hl1.
  destruct (for_each bill_step (init_balances users) l1) as [m1|e]; [|done].
  destruct Hl1 as (Hdom & _ & _). cbn.
  rewrite bill_step_zero; [done|done|].
  rewrite Hdom. destruct (init_balances_spec users) as [_ ->].
  by apply drawn_from_known.
Qed.

Lemma zero_amount_bill_no_effect_witness :
  calculate_debts ROOMIES
    ([bill_300] ++
       {| Bill.date := "2024-03-09"; Bill.amount := 0;
          Bill.category := "Hogar"; Bill.description := "regalo";
          Bill.payer := "Ferb"; Bill.debtors := ["Ale"; "Fandi"];
          Bill.context := "house" |} :: [bill_self])
  = calculate_debts ROOMIES ([bill_300] ++ [bill_self]).
Proof.
  apply (zero_amount_bill_no_effect ROOMIES [bill_300] [bill_self]).
  - reflexivity.
  - by_compute.
Defined.

Lemma standing_zero : standing 0 = PazYSalvo.
Proof. by vm_compute. Qed.

(** X25. While the active context has no bill, the dashboard shows every
    participant of the active mode as settled, whatever the other context
    holds. *)
Theorem resumen_no_bills (is_cat_mode : bool) (s : Session) :
  get_context_data (context_id is_cat_mode) (bills (data s)) = [] →
  resumen is_cat_mode s
  = Ok (map (λ person, (person, PazYSalvo)) (current_users is_cat_mode)).
Proof.
  intros Hnone. unfold resumen. rewrite Hnone.
  unfold calculate_debts. cbn [for_each mbind result_bind]. f_equal.
  assert (∀ l : list string,
            l ⊆ current_users is_cat_mode →
            omap (λ person,
                    (λ amount, (person, standing amount))
                      <$> init_balances (current_users is_cat_mode) !! person) l
            = map (λ person, (person, PazYSalvo)) l) as Hl.
  { induction l as [|u l IH]; intros Hsub; [done|]. cbn.
    rewrite init_balances_lookup by (apply Hsub; by left). cbn.
    rewrite standing_zero. f_equal. apply IH. intros v Hv. apply Hsub.
    by right. }
  by apply Hl.
Qed.

Lemma resumen_no_bills_witness :
  resumen true session_shopping
  = Ok (map (λ person, (person, PazYSalvo)) (current_users true)).
Proof. apply (resumen_no_bills true session_shopping). reflexivity. Defined.

(** ** The column of items to buy after a checkout *)

Lemma to_buy_restock (ctx : string) (items : list string)
    (sh : list ShoppingItem.t) :
  to_buy (get_context_data ctx (map (restock ctx items) sh))
  = filter (λ it, ShoppingItem.name it ∉ items)
      (to_buy (get_context_data ctx sh)).
Proof.
  unfold to_buy. induction sh as [|it sh IH]; [done|].
  cbn [map get_context_data].
  assert (get_context (restock ctx items it) = get_context it) as Hctx
    by (unfold restock; by case_decide).
  rewrite Hctx.
  destruct (decide (get_context it = Some ctx)) as [Hc|Hc]; [|done].
  rewrite !filter_cons, IH. unfold restock.
  assert (ShoppingItem.context it = ctx) as Hc'
    by (unfold get_context, ShoppingItem_contextual in Hc; congruence).
  destruct (decide (ShoppingItem.name it ∈ items)) as [Hin|Hout].
  - rewrite (decide_True (P := _ ∧ _)) by done. cbn.
    rewrite decide_False by done.
    destruct (decide (ShoppingItem.status it = "buy")); [|done].
    rewrite filter_cons. by rewrite decide_False by auto.
  - rewrite (decide_False (P := _ ∧ _)) by naive_solver.
    destruct (decide (ShoppingItem.status it = "buy")); [|done].
    rewrite filter_cons. by rewrite decide_True by done.
Qed.

Lemma other_view_restock (ctx ctx' : string) (items : list string)
    (sh : list ShoppingItem.t) :
  ctx' ≠ ctx →
  get_context_data ctx' (map (restock ctx items) sh) = get_context_data ctx' sh.
Proof.
  intros Hne. induction sh as [|it sh IH]; [done|].
  cbn [map get_context_data]. rewrite IH. unfold restock.
  destruct (decide (ShoppingItem.name it ∈ items
                    ∧ ShoppingItem.context it = ctx)) as [[_ Hc]|_]; [|done].
  rewrite !decide_False; [done| |];
    unfold get_context, ShoppingItem_contextual; cbn; congruence.
Qed.

(** X26. After a checkout, the column of items to buy of the active
    context is the old column without the items named in the cart, in the
    same order, and the shopping list seen from the other context is
    unchanged. *)
Theorem checkout_to_buy_column (str : Qc → string) (is_cat_mode : bool)
    (today c_payer : string) (c_debtors : list string) (s : Session) :
  0 < cart_total (shopping_cart s) →
  let s' := checkout str is_cat_mode today c_payer c_debtors s in
  to_buy (get_context_data (context_id is_cat_mode) (shopping (data s')))
  = filter (λ it, ShoppingItem.name it ∉ cart_items (shopping_cart s))
      (to_buy (get_context_data (context_id is_cat_mode) (shopping (data s))))
  ∧ get_context_data (context_id (negb is_cat_mode)) (shopping (data s'))
    = get_context_data (context_id (negb is_cat_mode)) (shopping (data s)).
Proof.
  intros Hpos. cbv zeta. rewrite checkout_positive by done.
  cbn [data shopping]. split.
  - apply to_buy_restock.
  - apply other_view_restock. by destruct is_cat_mode.
Qed.

Lemma checkout_to_buy_column_witness :
  to_buy (get_context_data (context_id false)
            (shopping (data (checkout str_integral false "2024-03-10" "Ale"
                               ROOMIES session_milk_only))))
  = filter (λ it, ShoppingItem.name it
                  ∉ cart_items (shopping_cart session_milk_only))
      (to_buy (get_context_data (context_id false)
                 (shopping (data session_milk_only)))).
Proof.
  apply (checkout_to_buy_column str_integral false "2024-03-10" "Ale" ROOMIES
           session_milk_only).
  by_compute.
Defined.
